(** * Energy-model functions: a shallow embedding and its properties

    The development follows the two Python modules of the repository,
    [energy_model_functions.py] and [load_a_netcdf_example.py].

    - Python floats and numpy's float64 are IEEE binary64 numbers: they are
      Rocq's primitive floats, so every constant of the source (273.15,
      0.0042, ...) is the same binary64 value here as there.
    - A numpy array is a shape with its elements in row-major order.
    - A Python exception is a value of [exn]; code that may raise returns a
      [result].
    - Names that a function body reads without binding them are looked up in
      the module's globals, a finite map from names to values. *)

From Stdlib Require Import ZArith Floats.PrimFloat Floats.SpecFloat Floats.FloatOps.
From Stdlib Require Import Floats.FloatAxioms.
From stdpp Require Import base option list strings gmap.

Set Warnings "-inexact-float".

Open Scope string_scope.
Open Scope list_scope.

(** ** Exceptions and results *)

Inductive exn : Type :=
| NameError (name : string)
| TypeError (msg : string)
| ValueError (msg : string)
| IndexError (msg : string)
| KeyError (key : string)
| ZeroDivisionError (msg : string)
| OverflowError (msg : string)
| FileNotFoundError (path : string).

(** In Python's exception hierarchy [IndexError] and [KeyError] are the two
    subclasses of [LookupError]. *)
Definition is_LookupError (e : exn) : bool :=
  match e with
  | IndexError _ | KeyError _ => true
  | _ => false
  end.

Inductive result (A : Type) : Type :=
| Ok (a : A)
| Raise (e : exn).
Arguments Ok {A} a.
Arguments Raise {A} e.

#[global] Instance result_ret : MRet result := fun A a => Ok a.
#[global] Instance result_bind : MBind result := fun A B f m =>
  match m with
  | Ok a => f a
  | Raise e => Raise e
  end.

Definition raises {A} (m : result A) : Prop := exists e, m = Raise e.

(** A [for] loop over a list of indices whose body may raise; the loop state
    is what the body mutates. *)
Fixpoint for_each {S I : Type} (body : S -> I -> result S) (s : S) (l : list I)
  : result S :=
  match l with
  | [] => Ok s
  | i :: l' => s' ← body s i; for_each body s' l'
  end.

(** ** numpy arrays *)

Record ndarray : Type := mk_ndarray { shape : list nat; data : list float }.

Definition prod_shape (s : list nat) : nat := foldr Nat.mul 1 s.
Definition size (a : ndarray) : nat := length (data a).

Definition scalar0 (x : float) : ndarray := mk_ndarray [] [x].
Definition array1 (l : list float) : ndarray := mk_ndarray [length l] l.

(** [np.zeros(shape)] for a shape given as a tuple of ints. *)
Definition zeros (s : list nat) : ndarray :=
  mk_ndarray s (replicate (prod_shape s) 0%float).

(** [a.flatten()]: the elements in row-major order, as a 1-D array. *)
Definition flatten (a : ndarray) : ndarray := array1 (data a).

(** [np.meshgrid(lons, lats)] with the default [indexing='xy']: both results
    have shape (lats.size, lons.size); the first repeats [lons] along the
    rows, the second repeats each latitude along its row. *)
Definition meshgrid (lons lats : ndarray) : ndarray * ndarray :=
  let nx := size lons in
  let ny := size lats in
  (mk_ndarray [ny; nx] (mjoin (replicate ny (data lons))),
   mk_ndarray [ny; nx] (mjoin ((fun la => replicate nx la) <$> data lats))).

(** [np.reshape(a, (n0, n1))]. *)
Definition reshape2 (a : ndarray) (n0 n1 : nat) : result ndarray :=
  if Nat.eqb (size a) (n0 * n1) then Ok (mk_ndarray [n0; n1] (data a))
  else Raise (ValueError "cannot reshape array into shape").

(** *** Broadcasting *)

(** On reversed shapes: trailing dimensions are aligned, and two extents
    agree when they are equal or one of them is 1. *)
Fixpoint broadcast_rev (s1 s2 : list nat) : option (list nat) :=
  match s1, s2 with
  | [], s | s, [] => Some s
  | d1 :: r1, d2 :: r2 =>
      d ← (if Nat.eqb d1 d2 then Some d1
           else if Nat.eqb d1 1 then Some d2
           else if Nat.eqb d2 1 then Some d1 else None);
      r ← broadcast_rev r1 r2;
      Some (d :: r)
  end.

Definition broadcast_shapes (s1 s2 : list nat) : option (list nat) :=
  reverse <$> broadcast_rev (reverse s1) (reverse s2).

(** [m] consecutive chunks of [k] elements. *)
Fixpoint chunks (m k : nat) (d : list float) : list (list float) :=
  match m with
  | O => []
  | S m' => take k d :: chunks m' k (drop k d)
  end.

(** The elements of an array of shape [sa], stretched to the shape [s] it
    broadcasts to. *)
Fixpoint broadcast_data (s sa : list nat) (d : list float) : list float :=
  match s with
  | [] => d
  | n :: s' =>
      if Nat.ltb (length sa) (length s) then
        mjoin (replicate n (broadcast_data s' sa d))
      else
        match sa with
        | [] => d
        | m :: sa' =>
            if Nat.eqb m n then
              mjoin (broadcast_data s' sa' <$> chunks m (prod_shape sa') d)
            else mjoin (replicate n (broadcast_data s' sa' d))
        end
  end.

Definition binop (f : float -> float -> float) (a b : ndarray) : result ndarray :=
  match broadcast_shapes (shape a) (shape b) with
  | None => Raise (ValueError "operands could not be broadcast together")
  | Some s =>
      Ok (mk_ndarray s (zip_with f (broadcast_data s (shape a) (data a))
                                   (broadcast_data s (shape b) (data b))))
  end.

(** Array with a Python float: elementwise, the shape is kept. *)
Definition map_array (f : float -> float) (a : ndarray) : ndarray :=
  mk_ndarray (shape a) (f <$> data a).

(** *** Reductions *)

(** [a.sum()] of a contiguous float64 array is numpy's pairwise summation.
    Fewer than 8 elements are added from the left, starting at -0.0.  Up to
    128 elements are added into eight interleaved accumulators, which are
    then combined as a tree, ((r0+r1)+(r2+r3))+((r4+r5)+(r6+r7)); the
    elements left over after the last full group of eight are added last.
    A longer array is cut in two, the first part a multiple of 8 long, and
    the sums of the two parts are added. *)
Definition sum8 (r : list float) : float :=
  match r with
  | [r0; r1; r2; r3; r4; r5; r6; r7] =>
      (((r0 + r1) + (r2 + r3)) + ((r4 + r5) + (r6 + r7)))%float
  | _ => foldl PrimFloat.add (-0)%float r
  end.

(** [k] further groups of eight, each added to the accumulators [r]. *)
Fixpoint accumulate8 (k : nat) (r l : list float) : list float * list float :=
  match k with
  | O => (r, l)
  | S k' => accumulate8 k' (zip_with PrimFloat.add r (take 8 l)) (drop 8 l)
  end.

Definition block_sum (l : list float) : float :=
  let '(r, rest) := accumulate8 (length l / 8 - 1) (take 8 l) (drop 8 l) in
  foldl PrimFloat.add (sum8 r) rest.

(** [fuel] bounds the depth of the halving; the length of the list is
    always enough ([pairwise_sum_fuel]). *)
Fixpoint pairwise_sum (fuel : nat) (l : list float) : float :=
  let n := length l in
  if Nat.ltb n 8 then foldl PrimFloat.add (-0)%float l
  else if Nat.leb n 128 then block_sum l
  else
    match fuel with
    | O => block_sum l
    | S fuel' =>
        let n2 := n / 2 - (n / 2) mod 8 in
        (pairwise_sum fuel' (take n2 l) + pairwise_sum fuel' (drop n2 l))%float
    end.

(** The reduction starts from the identity of addition, -0.0, and adds the
    pairwise sum of the elements; the sum of no element is 0.0.  (Older
    numpy releases start at 0.0 instead, which changes nothing but the sign
    of a sum that is zero.) *)
Definition np_sum (l : list float) : float :=
  match l with
  | [] => 0%float
  | _ => ((-0) + pairwise_sum (length l) l)%float
  end.

(** [np.average(a, weights=w)], no [axis] given.  numpy raises [TypeError]
    when the two shapes differ (an axis is then required), raises
    [ZeroDivisionError] when the weights sum to zero, and otherwise returns
    the scalar [sum(a * w) / sum(w)] over ALL elements. *)
Definition np_average (a w : ndarray) : result float :=
  if bool_decide (shape a = shape w) then
    let scl := np_sum (data w) in
    if PrimFloat.eqb scl 0%float then
      Raise (ZeroDivisionError "Weights sum to zero, can't be normalized")
    else
      Ok (PrimFloat.div (np_sum (zip_with PrimFloat.mul (data a) (data w))) scl)
  else
    Raise (TypeError "Axis must be specified when shapes of a and weights differ.").

(** [np.nan_to_num(x)] with its defaults: NaN becomes 0.0, the infinities
    become the largest and the smallest finite float64. *)
Definition float_max : float := 0x1.fffffffffffffp+1023%float.

Definition nan_to_num1 (x : float) : float :=
  if PrimFloat.is_nan x then 0%float
  else if PrimFloat.eqb x PrimFloat.infinity then float_max
  else if PrimFloat.eqb x PrimFloat.neg_infinity then PrimFloat.opp float_max
  else x.

Definition nan_to_num (a : ndarray) : ndarray := map_array nan_to_num1 a.

(** ** Python values

    What a module-level name can be bound to: an int, numeric float data (a
    0-d array stands for a Python float or a numpy scalar), or the builtin
    function [len], which the source passes to [np.zeros]. *)

Inductive value : Type :=
| VInt (n : Z)
| VNum (a : ndarray)
| VBuiltin_len.

(** [float(n)], correctly rounded; Python raises [OverflowError] for an int
    beyond the float range. *)
Definition float_of_int (n : Z) : result float :=
  let x := SF2Prim (binary_normalize prec emax n 0 false) in
  if PrimFloat.is_infinity x
  then Raise (OverflowError "int too large to convert to float")
  else Ok x.

(** A value as the operand of float arithmetic.  Every arithmetic operation
    of the two modules has a float constant or a float result on one side,
    so an int operand is promoted. *)
Definition to_num (v : value) : result ndarray :=
  match v with
  | VInt n => x ← float_of_int n; Ok (scalar0 x)
  | VNum a => Ok a
  | VBuiltin_len => Raise (TypeError "unsupported operand type(s)")
  end.

(** [len(v)] *)
Definition py_len (v : value) : result Z :=
  match v with
  | VNum a =>
      match shape a with
      | [] => Raise (TypeError "object of type 'numpy.float64' has no len()")
      | n :: _ => Ok (Z.of_nat n)
      end
  | VInt _ => Raise (TypeError "object of type 'int' has no len()")
  | VBuiltin_len =>
      Raise (TypeError "object of type 'builtin_function_or_method' has no len()")
  end.

(** [np.zeros(v)] for a single argument. *)
Definition np_zeros (v : value) : result ndarray :=
  match v with
  | VInt n =>
      if (n <? 0)%Z then Raise (ValueError "negative dimensions are not allowed")
      else Ok (zeros [Z.to_nat n])
  | VNum _ => Raise (TypeError "'float' object cannot be interpreted as an integer")
  | VBuiltin_len =>
      Raise (TypeError "expected a sequence of integers or a single integer")
  end.

(** [range(0, v)] *)
Definition py_range0 (v : value) : result (list Z) :=
  match v with
  | VInt n => Ok (seqZ 0 n)
  | VNum _ => Raise (TypeError "'float' object cannot be interpreted as an integer")
  | VBuiltin_len =>
      Raise (TypeError "'builtin_function_or_method' object cannot be interpreted as an integer")
  end.

(** [a[i]] for an int [i]: an element of a 1-D array, a sub-array of a
    higher-dimensional one; a negative index counts from the end. *)
Definition getitem (a : ndarray) (i : Z) : result ndarray :=
  match shape a with
  | [] => Raise (IndexError "invalid index to scalar variable.")
  | n :: s' =>
      let j := if (i <? 0)%Z then (i + Z.of_nat n)%Z else i in
      if ((0 <=? j) && (j <? Z.of_nat n))%Z then
        let k := prod_shape s' in
        Ok (mk_ndarray s' (take k (drop (Z.to_nat j * k) (data a))))
      else Raise (IndexError "index is out of bounds")
  end.

(** [a[i] = v] on a 1-D array [a]; [v] must hold exactly one element. *)
Definition setitem (a : ndarray) (i : Z) (v : ndarray) : result ndarray :=
  match data v with
  | [x] =>
      let n := Z.of_nat (size a) in
      let j := if (i <? 0)%Z then (i + n)%Z else i in
      if ((0 <=? j) && (j <? n))%Z then
        Ok (mk_ndarray (shape a) (<[Z.to_nat j := x]> (data a)))
      else Raise (IndexError "index is out of bounds")
  | _ => Raise (ValueError "setting an array element with a sequence.")
  end.

(** The truth value of a comparison result in an [if]: defined for exactly
    one element. *)
Definition truth (test : float -> bool) (a : ndarray) : result bool :=
  match data a with
  | [x] => Ok (test x)
  | _ => Raise (ValueError "The truth value of an array is ambiguous")
  end.

(** ** Module globals *)

(** The module-level bindings of the names that the function bodies read
    but never bind.  The imports ([np], [shapely], ...) and the builtins
    keep their meaning. *)
Abbreviation globals := (gmap string value).

Definition load_global (G : globals) (name : string) : result value :=
  match G !! name with
  | Some v => Ok v
  | None => Raise (NameError name)
  end.

(** The module as the file defines it binds none of those names. *)
Definition module_globals : globals := ∅.

(** ** Input data: NetCDF files and country boundaries *)

(** A NetCDF dataset is its [variables] dictionary; the file system maps a
    path to the dataset stored there.  Variables are read as float64
    arrays. *)
Abbreviation dataset := (gmap string ndarray).
Abbreviation filesystem := (gmap string dataset).

(** [Dataset(file_str, mode='r')] *)
Definition Dataset (fs : filesystem) (file_str : string) : result dataset :=
  match fs !! file_str with
  | Some d => Ok d
  | None => Raise (FileNotFoundError file_str)
  end.

(** [dataset.variables[key][:]] *)
Definition variable (d : dataset) (key : string) : result ndarray :=
  match d !! key with
  | Some a => Ok a
  | None => Raise (KeyError key)
  end.

(** shapely geometries enter only through [geometry.contains(Point(x, y))]:
    the interface is the containment test. *)
Class Geometry (G : Type) := contains : G -> float -> float -> bool.

(** A shapely MultiPolygon, the geometry of a country of several disjoint
    parts, is the collection of its polygons; it contains a point when one
    of them does. *)
#[global] Instance multipolygon_geometry {P : Type} `{!Geometry P}
  : Geometry (list P) :=
  fun parts x y => existsb (fun p => contains p x y) parts.

(** A record of the Natural Earth shapefile: the [NAME_LONG] attribute and
    the geometry. *)
Record country_record (G : Type) : Type :=
  mk_country_record { NAME_LONG : string; geometry : G }.
Arguments mk_country_record {G} _ _.
Arguments NAME_LONG {G} _.
Arguments geometry {G} _.

(** [l[0]] on a Python list. *)
Definition list_getitem0 {A} (l : list A) : result A :=
  match l with
  | [] => Raise (IndexError "list index out of range")
  | a :: _ => Ok a
  end.

(** [len(a)] for an array. *)
Definition array_len (a : ndarray) : result nat :=
  match shape a with
  | [] => Raise (TypeError "len() of unsized object")
  | n :: _ => Ok n
  end.

(** [x[i]] for [i] in [range(0, len(x))] on a 1-D array. *)
Definition getitem1 (x : ndarray) (i : nat) : result float :=
  match data x !! i with
  | Some v => Ok v
  | None => Raise (IndexError "index is out of bounds")
  end.

(** [M[i,0] = v] on an array of shape (n, 1). *)
Definition setitem_col0 (M : ndarray) (i : nat) (v : float) : result ndarray :=
  if Nat.ltb i (size M) then Ok (mk_ndarray (shape M) (<[i := v]> (data M)))
  else Raise (IndexError "index is out of bounds").

(** ** energy_model_functions.py *)

Module EnergyModel.

Section Loader.
Context {G : Type} `{!Geometry G}.

(** Lines 47-51: the geometries of all records whose [NAME_LONG] is
    [COUNTRY], in file order ([print] writes to stdout only). *)
Definition matching_geometries (records : list (country_record G))
    (COUNTRY : string) : list G :=
  foldl (fun country_shapely country =>
           if String.eqb (NAME_LONG country) COUNTRY
           then country_shapely ++ [geometry country]
           else country_shapely)
        [] records.

(** Lines 62-65: the unit conversions. *)
Definition convert_units (nc_key : string) (data : ndarray) : ndarray :=
  let data := if String.eqb nc_key "t2m"
              then map_array (fun v => v - 273.15)%float data else data in
  let data := if String.eqb nc_key "ssrd"
              then map_array (fun v => v / 3600)%float data else data in
  data.

(** Lines 73-76: one iteration of the mask loop. *)
Definition mask_body (country_shapely : list G) (x y : ndarray)
    (MASK_MATRIX : ndarray) (i : nat) : result ndarray :=
  xi ← getitem1 x i;
  yi ← getitem1 y i;
  g0 ← list_getitem0 country_shapely;
  if contains g0 xi yi then setitem_col0 MASK_MATRIX i 1%float
  else Ok MASK_MATRIX.

(** Lines 67-78: the mask on the grid of [lons] and [lats]
    ([points], line 70, is never read). *)
Definition build_mask (country_shapely : list G) (lons lats : ndarray)
  : result ndarray :=
  let '(LONS, LATS) := meshgrid lons lats in
  let x := flatten LONS in
  let y := flatten LATS in
  let MASK_MATRIX := zeros [size x; 1] in
  MASK_MATRIX ← for_each (mask_body country_shapely x y) MASK_MATRIX
                  (seq 0 (size x));
  ny ← array_len lats;
  nx ← array_len lons;
  reshape2 MASK_MATRIX ny nx.

(** [load_country_weather_data], lines 7-86. *)
Definition load_country_weather_data (records : list (country_record G))
    (fs : filesystem) (COUNTRY data_dir filename nc_key : string)
  : result (ndarray * ndarray) :=
  let country_shapely := matching_geometries records COUNTRY in
  let file_str := String.append data_dir filename in
  dataset ← Dataset fs file_str;
  lons ← variable dataset "longitude";
  lats ← variable dataset "latitude";
  data ← variable dataset nc_key;
  let data := convert_units nc_key data in
  MASK_MATRIX_RESHAPE ← build_mask country_shapely lons lats;
  country_masked_data ← binop PrimFloat.mul data MASK_MATRIX_RESHAPE;
  Ok (country_masked_data, MASK_MATRIX_RESHAPE).

End Loader.

(** [solar_PV_model], lines 89-124.  The body never reads its two
    parameters: the fields it computes with are the names [Masked_T2m],
    [Masked_SWGDN] and [MASK_MATRIX_RESHAPE], which no statement of the
    function binds, so Python looks them up in the module globals. *)
Definition solar_PV_model (G : globals)
    (country_masked_data_T2m country_masked_data_ssrd : ndarray) : result float :=
  let T_ref := 25%float in
  let eff_ref := 0.9%float in
  let beta_ref := 0.0042%float in
  let G_ref := 1000%float in
  (* rel_efficiency_of_pannel = eff_ref*(1 - beta_ref*(Masked_T2m - T_ref)) *)
  Masked_T2m ← load_global G "Masked_T2m" ≫= to_num;
  let rel_efficiency_of_pannel :=
    map_array (fun t => eff_ref * (1 - beta_ref * (t - T_ref)))%float Masked_T2m in
  (* capacity_factor_of_pannel =
       np.nan_to_num(rel_efficiency_of_pannel*(Masked_SWGDN/G_ref)) *)
  Masked_SWGDN ← load_global G "Masked_SWGDN" ≫= to_num;
  prod ← binop PrimFloat.mul rel_efficiency_of_pannel
            (map_array (fun g => g / G_ref)%float Masked_SWGDN);
  let capacity_factor_of_pannel := nan_to_num prod in
  (* spatial_mean_solar_cf =
       np.average(capacity_factor_of_pannel, weights=MASK_MATRIX_RESHAPE) *)
  MASK_MATRIX_RESHAPE ← load_global G "MASK_MATRIX_RESHAPE" ≫= to_num;
  spatial_mean_solar_cf ← np_average capacity_factor_of_pannel MASK_MATRIX_RESHAPE;
  Ok spatial_mean_solar_cf.

(** The two threshold loops of [calc_hdd_cdd], lines 159-163 and 165-169:
    the body of one iteration, for the series [t2m] and the array [term]
    being filled. *)
Definition HDD_body (t2m : ndarray) (term : ndarray) (i : Z) : result ndarray :=
  ti ← getitem t2m i;
  c ← truth (fun t => t <=? 15.5)%float ti;
  if c : bool then
    ti ← getitem t2m i;
    setitem term i (map_array (fun t => 15.5 - t)%float ti)
  else setitem term i (scalar0 0).

Definition CDD_body (t2m : ndarray) (term : ndarray) (i : Z) : result ndarray :=
  ti ← getitem t2m i;
  c ← truth (fun t => 22.0 <=? t)%float ti;
  if c : bool then
    ti ← getitem t2m i;
    setitem term i (map_array (fun t => t - 22.0)%float ti)
  else setitem term i (scalar0 0).

(** [calc_hdd_cdd], lines 130-172. *)
Definition calc_hdd_cdd (G : globals) (t2m_array country_mask : ndarray)
  : result (ndarray * ndarray) :=
  (* spatial_mean_t2m = np.average(t2m_array,weights=country_mask) *)
  spatial_mean_t2m ← np_average t2m_array country_mask;
  let spatial_mean_t2m := scalar0 spatial_mean_t2m in
  (* timeseries_len = len(spatial_mean_t2m) *)
  timeseries_len ← py_len (VNum spatial_mean_t2m);
  (* HDD_term = np.zeros(timeseries_len) ; CDD_term = np.zeros(len) *)
  HDD_term ← np_zeros (VInt timeseries_len);
  CDD_term ← np_zeros VBuiltin_len;
  (* for i in range(0,len_of_training_period): ... *)
  r ← load_global G "len_of_training_period" ≫= py_range0;
  HDD_term ← for_each (HDD_body spatial_mean_t2m) HDD_term r;
  r ← load_global G "len_of_training_period" ≫= py_range0;
  CDD_term ← for_each (CDD_body spatial_mean_t2m) CDD_term r;
  Ok (HDD_term, CDD_term).

(** [calc_national_wd_demand_2017], lines 175-202: the body is the single
    statement [return(demand_timeseries)], a name bound nowhere. *)
Definition calc_national_wd_demand_2017 (G : globals) (hdd cdd : ndarray)
    (filestr_reg_coefficients COUNTRY : string) : result value :=
  demand_timeseries ← load_global G "demand_timeseries";
  Ok demand_timeseries.

End EnergyModel.

(** ** load_a_netcdf_example.py *)

Module NetcdfExample.

(** [load_weather_data_daily], lines 4-50: the same reading and unit
    conversions, no mask. *)
Definition load_weather_data_daily (fs : filesystem)
    (data_dir filename nc_key : string) : result (ndarray * ndarray * ndarray) :=
  let file_str := String.append data_dir filename in
  dataset ← Dataset fs file_str;
  lons ← variable dataset "longitude";
  lats ← variable dataset "latitude";
  data ← variable dataset nc_key;
  let data := if String.eqb nc_key "t2m"
              then map_array (fun v => v - 273.15)%float data else data in
  let data := if String.eqb nc_key "ssrd"
              then map_array (fun v => v / 3600)%float data else data in
  Ok (data, lons, lats).

(** The main code, line 62: the triple returned by the loader is unpacked
    into the module-level names [ERA5_data_jan_1979], [lats], [lons], in
    that order.  The result is the module namespace after the statement. *)
Definition main (fs : filesystem) : result globals :=
  '(v0, v1, v2) ← load_weather_data_daily fs
      "/storage/silver/S2S4E/energymet/ERA5/native_grid_hourly/"
      "ERA5_1hr_1979_01_DET.nc" "t2m";
  Ok (<["lons" := VNum v2]>
        (<["lats" := VNum v1]>
           (<["ERA5_data_jan_1979" := VNum v0]> ∅))).

End NetcdfExample.

Import EnergyModel NetcdfExample.

(** ** Closed forms used in the statements *)

(** The per-timestep thresholds of the two loops of [calc_hdd_cdd]. *)
Definition hdd_of (t : float) : float := (if t <=? 15.5 then 15.5 - t else 0)%float.
Definition cdd_of (t : float) : float := (if 22.0 <=? t then t - 22.0 else 0)%float.

(** What the unit conversions of the loaders do to one value of the variable
    [nc_key]. *)
Definition converted (nc_key : string) (v : float) : float :=
  if decide (nc_key = "t2m") then (v - 273.15)%float
  else if decide (nc_key = "ssrd") then (v / 3600)%float
  else v.

(** The capacity factor [solar_PV_model] computes for one cell, lines
    117-119, from its temperature [t] and irradiance [g]. *)
Definition panel_capacity_factor (t g : float) : float :=
  nan_to_num1 (0.9 * (1 - 0.0042 * (t - 25)) * (g / 1000))%float.

(** The value the loop leaves in cell [k] when the first matching geometry
    is [g]. *)
Definition cell {G : Type} `{!Geometry G} (g : G) (x y : ndarray) (k : nat)
  : float :=
  match data x !! k, data y !! k with
  | Some xk, Some yk => if contains g xk yk then 1%float else 0%float
  | _, _ => 0%float
  end.

(** The mask the loop builds on the grid of the 1-D coordinates [xs]
    (longitudes) and [ys] (latitudes) from the geometry [g], in row-major
    order. *)
Definition grid_mask {G : Type} `{!Geometry G} (g : G) (xs ys : list float)
  : list float :=
  cell g (flatten (meshgrid (array1 xs) (array1 ys)).1)
         (flatten (meshgrid (array1 xs) (array1 ys)).2)
    <$> seq 0 (length ys * length xs).

(** ** Concrete inputs used in the examples *)

(** An axis-aligned open box: [contains] is shapely's test for a rectangle
    polygon, which excludes the boundary. *)
Record box : Type := mk_box { x0 : float; y0 : float; x1 : float; y1 : float }.

#[global] Instance box_geometry : Geometry box := fun b x y =>
  ((x0 b <? x) && (x <? x1 b) && (y0 b <? y) && (y <? y1 b))%float.

(** A country of two disjoint parts, and a grid lons = [0, 1, 2],
    lats = [50, 51] with one timestep of 2 m temperature in Kelvin. *)
Definition part_A : box := mk_box 0.5 49.5 1.5 50.5.
Definition part_B : box := mk_box 1.5 50.5 2.5 51.5.

Definition atlantis_records : list (country_record box) :=
  [mk_country_record "Atlantis" part_A;
   mk_country_record "Utopia" (mk_box 0 0 1 1);
   mk_country_record "Atlantis" part_B].

(** A boundary file in which the two parts are the polygons of the one
    record of their country. *)
Definition archipelago_records : list (country_record (list box)) :=
  [mk_country_record "Utopia" [mk_box 0 0 1 1];
   mk_country_record "Atlantis" [part_A; part_B]].

Definition t2m_raw : ndarray :=
  mk_ndarray [1; 2; 3] [273.15; 283.15; 293.15; 273.15; 283.15; 293.15]%float.

Definition era5_example : dataset :=
  <["longitude" := array1 [0; 1; 2]%float]>
  (<["latitude" := array1 [50; 51]%float]>
  (<["t2m" := t2m_raw]> ∅)).
Definition fs_example : filesystem := <["/data/era5.nc" := era5_example]> ∅.

(** The same file with an empty longitude axis. *)
Definition ds_no_lon : dataset :=
  <["longitude" := array1 []]>
  (<["latitude" := array1 [50; 51]%float]>
  (<["t2m" := mk_ndarray [1; 2; 0] []]> ∅)).
Definition fs_no_lon : filesystem := <["/data/era5.nc" := ds_no_lon]> ∅.

(** A file with both variables of the solar model on the example grid, and
    the file the main code of the example script reads. *)
Definition ssrd_raw : ndarray :=
  mk_ndarray [1; 2; 3] [0; 3600; 7200; 0; 3600; 7200]%float.
Definition era5_two_variables : dataset := <["ssrd" := ssrd_raw]> era5_example.
Definition fs_two_variables : filesystem :=
  <["/data/era5.nc" := era5_two_variables]> ∅.
Definition fs_main : filesystem :=
  <["/storage/silver/S2S4E/energymet/ERA5/native_grid_hourly/ERA5_1hr_1979_01_DET.nc"
    := era5_example]> ∅.

(** The temperature series of the design's example, as a field of five
    timesteps on a one-cell grid, with the all-ones mask of that grid. *)
Definition T_example : list float := [10; 15.5; 16; 22; 25]%float.
Definition T_field : ndarray := mk_ndarray [5; 1; 1] T_example.
Definition ones_1x1 : ndarray := mk_ndarray [1; 1] [1%float].

(** One timestep on a one-cell grid: T = 25 degrees C, irradiance
    1000 W/m2. *)
Definition T25 : ndarray := mk_ndarray [1; 1; 1] [25%float].
Definition G1000 : ndarray := mk_ndarray [1; 1; 1] [1000%float].

(** The module globals after a caller has bound the three names the body
    reads. *)
Definition bound_globals (t2m ssrd mask : ndarray) : globals :=
  <["Masked_T2m" := VNum t2m]>
    (<["Masked_SWGDN" := VNum ssrd]>
       (<["MASK_MATRIX_RESHAPE" := VNum mask]> ∅)).

(** ** Basic facts about results and loops *)

Lemma bind_Ok {A B} (a : A) (f : A -> result B) : (Ok a ≫= f) = f a.
Proof. reflexivity. Qed.

Lemma bind_Raise {A B} (e : exn) (f : A -> result B) : (Raise e ≫= f) = Raise e.
Proof. reflexivity. Qed.

(** A loop whose body raises at the first index raises the same exception. *)
Lemma for_each_raise_first {S I} (body : S -> I -> result S) s i l e :
  body s i = Raise e -> for_each body s (i :: l) = Raise e.
Proof. intros H. simpl. by rewrite H. Qed.

(** ** Facts about numpy's average *)

Lemma np_average_shape_mismatch a w :
  shape a <> shape w ->
  np_average a w =
    Raise (TypeError "Axis must be specified when shapes of a and weights differ.").
Proof. intros H. unfold np_average. by rewrite bool_decide_eq_false_2. Qed.

Lemma np_average_zero_weights a w :
  shape a = shape w -> PrimFloat.eqb (np_sum (data w)) 0%float = true ->
  np_average a w = Raise (ZeroDivisionError "Weights sum to zero, can't be normalized").
Proof.
  intros Hs Hz. unfold np_average. rewrite bool_decide_eq_true_2 by done.
  simpl. by rewrite Hz.
Qed.

(** The length of the list is fuel enough: more changes nothing. *)
Lemma pairwise_sum_fuel f1 : forall f2 l,
  length l <= f1 -> length l <= f2 -> pairwise_sum f1 l = pairwise_sum f2 l.
Proof.
  induction f1 as [|f1 IH]; intros f2 l H1 H2.
  - destruct l; [|simpl in H1; lia]. by destruct f2.
  - destruct f2 as [|f2]; [destruct l; [done|simpl in H2; lia]|].
    cbn [pairwise_sum].
    destruct (Nat.ltb_spec (length l) 8) as [H8|H8]; [done|].
    destruct (Nat.leb_spec (length l) 128) as [H128|H128]; [done|].
    pose proof (Nat.Div0.mul_div_le (length l) 2) as Hdiv.
    pose proof (Nat.mod_upper_bound (length l / 2) 8) as Hmod.
    assert (64 <= length l / 2) as Hhalf
      by (apply Nat.div_le_lower_bound; lia).
    rewrite (IH f2 (take _ l)), (IH f2 (drop _ l));
      rewrite ?length_take, ?length_drop; try lia. reflexivity.
Qed.

(** [ZeroDivisionError] is raised for no other reason than a zero weight
    sum on arrays of one shape. *)
Lemma np_average_ZeroDivisionError_inv a w msg :
  np_average a w = Raise (ZeroDivisionError msg) ->
  shape a = shape w /\ PrimFloat.eqb (np_sum (data w)) 0%float = true.
Proof.
  unfold np_average. destruct (bool_decide_reflect (shape a = shape w)) as [Hs|Hs];
    [|discriminate].
  cbn zeta. destruct (PrimFloat.eqb (np_sum (data w)) 0%float); [done|discriminate].
Qed.

(** With equal shapes and a non-zero weight sum the result is ONE number,
    the weighted mean over every element of the field. *)
Lemma np_average_value a w :
  shape a = shape w -> PrimFloat.eqb (np_sum (data w)) 0%float = false ->
  np_average a w =
    Ok (np_sum (zip_with PrimFloat.mul (data a) (data w)) / np_sum (data w))%float.
Proof.
  intros Hs Hz. unfold np_average. rewrite bool_decide_eq_true_2 by done.
  simpl. by rewrite Hz.
Qed.

Lemma calc_hdd_cdd_raises G a w : raises (calc_hdd_cdd G a w).
Proof.
  unfold calc_hdd_cdd. destruct (np_average a w) as [m|e].
  - rewrite bind_Ok. eexists. reflexivity.
  - eexists. reflexivity.
Qed.

Lemma broadcast_rev_same s : broadcast_rev s s = Some s.
Proof.
  induction s as [|d s IH]; [done|]. simpl. by rewrite Nat.eqb_refl, IH.
Qed.

(** Two arrays of one shape combine elementwise, in that shape. *)
Lemma broadcast_shapes_same s : broadcast_shapes s s = Some s.
Proof.
  unfold broadcast_shapes. rewrite broadcast_rev_same. simpl.
  by rewrite reverse_involutive.
Qed.

Lemma load_bound_T2m t2m ssrd mask :
  load_global (bound_globals t2m ssrd mask) "Masked_T2m" = Ok (VNum t2m).
Proof. reflexivity. Qed.

Lemma load_bound_SWGDN t2m ssrd mask :
  load_global (bound_globals t2m ssrd mask) "Masked_SWGDN" = Ok (VNum ssrd).
Proof. reflexivity. Qed.

Lemma load_bound_MASK t2m ssrd mask :
  load_global (bound_globals t2m ssrd mask) "MASK_MATRIX_RESHAPE" = Ok (VNum mask).
Proof. reflexivity. Qed.

(** ** The threshold loops of [calc_hdd_cdd], run on a 1-D series *)

Lemma getitem_array1 (T : list float) i t :
  T !! i = Some t -> getitem (array1 T) (Z.of_nat i) = Ok (scalar0 t).
Proof.
  intros Hi. pose proof (lookup_lt_Some _ _ _ Hi) as Hlt.
  unfold getitem, array1; simpl.
  replace (Z.of_nat i <? 0)%Z with false by lia.
  replace (0 <=? Z.of_nat i)%Z with true by lia.
  replace (Z.of_nat i <? Z.of_nat (length T))%Z with true by lia.
  simpl. rewrite Nat2Z.id, Nat.mul_1_r, (drop_S _ _ _ Hi). reflexivity.
Qed.

Lemma setitem_scalar term i x :
  i < size term ->
  setitem term (Z.of_nat i) (scalar0 x) =
    Ok (mk_ndarray (shape term) (<[i := x]> (data term))).
Proof.
  intros Hlt. unfold setitem; simpl.
  replace (Z.of_nat i <? 0)%Z with false by lia.
  replace (0 <=? Z.of_nat i)%Z with true by lia.
  replace (Z.of_nat i <? Z.of_nat (size term))%Z with true by lia.
  simpl. by rewrite Nat2Z.id.
Qed.

Lemma HDD_body_spec (T : list float) term i t :
  T !! i = Some t -> i < size term ->
  HDD_body (array1 T) term (Z.of_nat i) =
    Ok (mk_ndarray (shape term) (<[i := hdd_of t]> (data term))).
Proof.
  intros Hi Hlt. unfold HDD_body, hdd_of.
  rewrite (getitem_array1 _ _ _ Hi), bind_Ok. simpl.
  destruct (t <=? 15.5)%float; simpl.
  - by apply setitem_scalar.
  - by apply setitem_scalar.
Qed.

Lemma CDD_body_spec (T : list float) term i t :
  T !! i = Some t -> i < size term ->
  CDD_body (array1 T) term (Z.of_nat i) =
    Ok (mk_ndarray (shape term) (<[i := cdd_of t]> (data term))).
Proof.
  intros Hi Hlt. unfold CDD_body, cdd_of.
  rewrite (getitem_array1 _ _ _ Hi), bind_Ok. simpl.
  destruct (22.0 <=? t)%float; simpl.
  - by apply setitem_scalar.
  - by apply setitem_scalar.
Qed.

Section ThresholdLoop.
Variable T : list float.
Variable h : float -> float.
Variable body : ndarray -> Z -> result ndarray.
Hypothesis body_spec : forall term i t,
  T !! i = Some t -> i < size term ->
  body term (Z.of_nat i) =
    Ok (mk_ndarray (shape term) (<[i := h t]> (data term))).

(** After the indices below [k] the first [k] entries hold the thresholded
    values and the rest is still zero. *)
Lemma threshold_loop_from m : forall k filled,
  length filled = k -> k + m = length T ->
  for_each body (mk_ndarray [length T] (filled ++ replicate m 0%float))
           (Z.of_nat <$> seq k m) =
    Ok (mk_ndarray [length T] (filled ++ (h <$> drop k T))).
Proof.
  induction m as [|m IH]; intros k filled Hk Hn.
  - simpl. rewrite drop_ge by lia. reflexivity.
  - destruct (lookup_lt_is_Some_2 T k) as [t Ht]; [lia|].
    cbn [seq]. rewrite fmap_cons. cbn [for_each].
    rewrite (body_spec _ _ t Ht).
    2: { unfold size; simpl. rewrite length_app; simpl.
         rewrite length_replicate. lia. }
    rewrite bind_Ok. cbn [shape data replicate].
    replace (<[k:=h t]> (filled ++ 0%float :: replicate m 0%float))
      with ((filled ++ [h t]) ++ replicate m 0%float).
    2: { rewrite insert_app_r_alt by lia.
         replace (k - length filled) with 0 by lia. simpl.
         by rewrite <- app_assoc. }
    rewrite (IH (S k) (filled ++ [h t])).
    + rewrite (drop_S _ _ _ Ht), fmap_cons, <- app_assoc. reflexivity.
    + rewrite length_app; simpl. lia.
    + lia.
Qed.

Lemma threshold_loop :
  for_each body (zeros [length T]) (seqZ 0 (Z.of_nat (length T))) =
    Ok (array1 (h <$> T)).
Proof.
  unfold zeros, array1, seqZ; simpl.
  rewrite Nat.mul_1_r, Nat2Z.id, length_fmap.
  rewrite (list_fmap_ext (fun i => (Z.of_nat i + 0)%Z) Z.of_nat (seq 0 (length T)))
    by (intros; lia).
  apply (threshold_loop_from (length T) 0 []); [done|lia].
Qed.
End ThresholdLoop.

(** Run on a series, the two loops compute the per-timestep thresholds. *)
Lemma HDD_loop (T : list float) :
  for_each (HDD_body (array1 T)) (zeros [length T]) (seqZ 0 (Z.of_nat (length T)))
  = Ok (array1 (hdd_of <$> T)).
Proof. apply threshold_loop. intros. by apply HDD_body_spec. Qed.

Lemma CDD_loop (T : list float) :
  for_each (CDD_body (array1 T)) (zeros [length T]) (seqZ 0 (Z.of_nat (length T)))
  = Ok (array1 (cdd_of <$> T)).
Proof. apply threshold_loop. intros. by apply CDD_body_spec. Qed.

Example degree_day_thresholds :
  hdd_of <$> [10; 15.5; 16; 22; 25]%float = [5.5; 0; 0; 0; 0]%float /\
  cdd_of <$> [10; 15.5; 16; 22; 25]%float = [0; 0; 0; 0; 3]%float.
Proof. split; reflexivity. Qed.

(** ** The country mask *)

Lemma length_join_replicate {A} n (l : list A) :
  length (mjoin (replicate n l)) = n * length l.
Proof. induction n as [|n IH]; simpl; [done|]. rewrite length_app, IH. lia. Qed.

Lemma length_join_rows {A} n (l : list A) :
  length (mjoin ((fun a => replicate n a) <$> l)) = length l * n.
Proof.
  induction l as [|a l IH]; simpl; [done|].
  rewrite length_app, length_replicate. f_equal. exact IH.
Qed.

Lemma meshgrid_sizes lons lats :
  size (flatten (meshgrid lons lats).1) = size lats * size lons /\
  size (flatten (meshgrid lons lats).2) = size lats * size lons.
Proof.
  unfold meshgrid, flatten, size; cbn [fst snd data array1]. split.
  - apply length_join_replicate.
  - apply length_join_rows.
Qed.

Section Mask.
Context {G : Type} `{!Geometry G}.

(** The matching geometries are those of the records named [COUNTRY], in
    file order. *)
Lemma matching_geometries_filter (records : list (country_record G)) COUNTRY :
  matching_geometries records COUNTRY =
    geometry <$> filter (fun c => NAME_LONG c = COUNTRY) records.
Proof.
  unfold matching_geometries.
  enough (forall acc,
    foldl (fun country_shapely country =>
             if String.eqb (NAME_LONG country) COUNTRY
             then country_shapely ++ [geometry country] else country_shapely)
          acc records
    = acc ++ (geometry <$> filter (fun c => NAME_LONG c = COUNTRY) records))
    as H by apply (H []).
  induction records as [|c records IH]; intros acc; simpl.
  - by rewrite app_nil_r.
  - rewrite IH, filter_cons. destruct (String.eqb_spec (NAME_LONG c) COUNTRY).
    + rewrite decide_True by done. by rewrite fmap_cons, <- app_assoc.
    + by rewrite decide_False.
Qed.

Lemma cell_0_or_1 g x y k : cell g x y k = 0%float \/ cell g x y k = 1%float.
Proof.
  unfold cell. destruct (data x !! k), (data y !! k); auto.
  destruct (contains _ _ _); auto.
Qed.

Lemma mask_body_first g rest x y M k :
  k < size x -> k < size y -> k < size M -> data M !! k = Some 0%float ->
  mask_body (g :: rest) x y M k =
    Ok (mk_ndarray (shape M) (<[k := cell g x y k]> (data M))).
Proof.
  intros Hx Hy HM H0. unfold mask_body, getitem1, cell.
  destruct (lookup_lt_is_Some_2 (data x) k Hx) as [xk ->].
  destruct (lookup_lt_is_Some_2 (data y) k Hy) as [yk ->].
  simpl. destruct (contains g xk yk).
  - unfold setitem_col0. by apply Nat.ltb_lt in HM as ->.
  - rewrite list_insert_id by done. by destruct M.
Qed.

(** Only the first matching geometry is ever consulted. *)
Lemma mask_loop_from g rest x y n m : forall k filled,
  size x = n -> size y = n -> length filled = k -> k + m = n ->
  for_each (mask_body (g :: rest) x y)
           (mk_ndarray [n; 1] (filled ++ replicate m 0%float)) (seq k m) =
    Ok (mk_ndarray [n; 1] (filled ++ (cell g x y <$> seq k m))).
Proof.
  induction m as [|m IH]; intros k filled Hx Hy Hk Hn.
  - reflexivity.
  - cbn [seq for_each].
    assert (length (filled ++ replicate (S m) 0%float) = n) as Hlen
      by (rewrite length_app, length_replicate; lia).
    rewrite mask_body_first; try lia; try (unfold size; cbn [data]; lia).
    2: { cbn [data]. rewrite lookup_app_r by lia.
         by replace (k - length filled) with 0 by lia. }
    rewrite bind_Ok. cbn [shape data replicate].
    replace (<[k:=cell g x y k]> (filled ++ 0%float :: replicate m 0%float))
      with ((filled ++ [cell g x y k]) ++ replicate m 0%float).
    2: { rewrite insert_app_r_alt by lia.
         replace (k - length filled) with 0 by lia. simpl.
         by rewrite <- app_assoc. }
    rewrite (IH (S k) (filled ++ [cell g x y k])); try done.
    + by rewrite fmap_cons, <- app_assoc.
    + rewrite length_app; simpl. lia.
    + lia.
Qed.

Lemma mask_loop g rest x y :
  size y = size x ->
  for_each (mask_body (g :: rest) x y) (zeros [size x; 1]) (seq 0 (size x)) =
    Ok (mk_ndarray [size x; 1] (cell g x y <$> seq 0 (size x))).
Proof.
  intros Hy. unfold zeros; simpl. rewrite Nat.mul_1_r.
  by apply (mask_loop_from g rest x y (size x) (size x) 0 []).
Qed.

(** With no matching geometry the first iteration raises. *)
Lemma mask_loop_empty x y M n :
  0 < size x -> 0 < size y ->
  for_each (mask_body [] x y) M (seq 0 (S n)) =
    Raise (IndexError "list index out of range").
Proof.
  intros Hx Hy. apply for_each_raise_first. unfold mask_body, getitem1.
  destruct (lookup_lt_is_Some_2 (data x) 0 Hx) as [xk ->].
  destruct (lookup_lt_is_Some_2 (data y) 0 Hy) as [yk ->].
  reflexivity.
Qed.

(** [build_mask] on a grid given by two 1-D coordinate arrays, when at least
    one geometry matched. *)
Lemma build_mask_first g rest (lons lats : list float) :
  build_mask (g :: rest) (array1 lons) (array1 lats) =
    let x := flatten (meshgrid (array1 lons) (array1 lats)).1 in
    let y := flatten (meshgrid (array1 lons) (array1 lats)).2 in
    Ok (mk_ndarray [length lats; length lons]
          (cell g x y <$> seq 0 (length lats * length lons))).
Proof.
  unfold build_mask.
  destruct (meshgrid_sizes (array1 lons) (array1 lats)) as [Hx Hy].
  destruct (meshgrid (array1 lons) (array1 lats)) as [LONS LATS] eqn:Hmesh.
  cbn [fst snd] in *. change (size (array1 lons)) with (length lons) in *.
  change (size (array1 lats)) with (length lats) in *.
  rewrite mask_loop by congruence. rewrite bind_Ok. cbn [array_len array1 shape].
  rewrite !bind_Ok. unfold reshape2, size at 1. cbn [data].
  rewrite length_fmap, length_seq, Hx, Nat.eqb_refl. reflexivity.
Qed.

Lemma build_mask_first_only g rest lons lats :
  build_mask (g :: rest) lons lats = build_mask [g] lons lats.
Proof. reflexivity. Qed.

End Mask.

(** ** Grid coordinates of a cell *)

Lemma lookup_join_replicate {A} (l : list A) ny j i :
  j < ny -> i < length l ->
  mjoin (replicate ny l) !! (j * length l + i) = l !! i.
Proof.
  revert j. induction ny as [|ny IH]; intros j Hj Hi; [lia|].
  cbn [replicate mjoin list_join]. destruct j as [|j].
  - simpl. by rewrite lookup_app_l.
  - rewrite lookup_app_r by lia.
    replace (S j * length l + i - length l) with (j * length l + i) by lia.
    apply IH; lia.
Qed.

Lemma lookup_join_rows {A} (l : list A) nx j i :
  i < nx ->
  mjoin ((fun a => replicate nx a) <$> l) !! (j * nx + i) = l !! j.
Proof.
  revert j. induction l as [|a l IH]; intros j Hi.
  - by rewrite lookup_nil.
  - rewrite fmap_cons. cbn [mjoin list_join]. destruct j as [|j].
    + simpl. rewrite lookup_app_l by (rewrite length_replicate; lia).
      by apply lookup_replicate_2.
    + rewrite lookup_app_r by (rewrite length_replicate; lia).
      rewrite length_replicate.
      replace (S j * nx + i - nx) with (j * nx + i) by lia.
      by rewrite IH.
Qed.


(** ** Degree days *)

(** C1.  [calc_hdd_cdd] never returns a pair of series.  On the example
    series given as a [time, lat, lon] field it raises at line 153; given as
    a bare 1-D series with 1-D weights it raises at line 154, because the
    average is a scalar; and for every binding of the module globals and
    every pair of arguments the call ends in an exception.  The thresholds
    the two loops would apply are the stated ones ([HDD_loop], [CDD_loop],
    [degree_day_thresholds]), but the loops are never reached. *)
Theorem calc_hdd_cdd_never_returns_series :
  calc_hdd_cdd module_globals T_field ones_1x1 =
    Raise (TypeError "Axis must be specified when shapes of a and weights differ.")
  /\ calc_hdd_cdd module_globals (array1 T_example)
       (array1 [1; 1; 1; 1; 1]%float) =
    Raise (TypeError "object of type 'numpy.float64' has no len()")
  /\ forall (G : globals) (t2m_array country_mask : ndarray),
       raises (calc_hdd_cdd G t2m_array country_mask).
Proof.
  split; [reflexivity|]. split; [reflexivity|].
  intros G a w. apply calc_hdd_cdd_raises.
Qed.

(** ** Spatial mean *)

(** C2.  For a field of shape [time, lat, lon] and a mask of shape
    [lat, lon] the spatial-mean step raises [TypeError] whatever the values
    and the weights are: the call gives no axis, and numpy then requires
    equal shapes.  No 1-D series of length [time] is produced, by
    [calc_hdd_cdd] (line 153) or by [solar_PV_model] (lines 121-122, with
    the names it reads bound to such fields and mask); this holds in
    particular for an all-ones mask. *)
Theorem spatial_mean_of_3d_field_raises :
  forall (G : globals) (nt ny nx : nat) (field field' weights : list float)
         (a b : ndarray),
    np_average (mk_ndarray [nt; ny; nx] field) (mk_ndarray [ny; nx] weights) =
      Raise (TypeError "Axis must be specified when shapes of a and weights differ.")
    /\ calc_hdd_cdd G (mk_ndarray [nt; ny; nx] field) (mk_ndarray [ny; nx] weights) =
      Raise (TypeError "Axis must be specified when shapes of a and weights differ.")
    /\ solar_PV_model
         (bound_globals (mk_ndarray [nt; ny; nx] field)
                        (mk_ndarray [nt; ny; nx] field')
                        (mk_ndarray [ny; nx] weights)) a b =
      Raise (TypeError "Axis must be specified when shapes of a and weights differ.").
Proof.
  intros G nt ny nx field field' weights a b.
  assert (forall d, np_average (mk_ndarray [nt; ny; nx] d) (mk_ndarray [ny; nx] weights) =
    Raise (TypeError "Axis must be specified when shapes of a and weights differ."))
    as H.
  { intros d. apply np_average_shape_mismatch. simpl. intros E.
    apply (f_equal length) in E. discriminate. }
  split; [apply H|]. split.
  - unfold calc_hdd_cdd. by rewrite H.
  - unfold solar_PV_model.
    rewrite load_bound_T2m, load_bound_SWGDN, load_bound_MASK.
    cbn [to_num mbind result_bind].
    unfold binop, map_array. cbn [shape data].
    rewrite broadcast_shapes_same, bind_Ok.
    unfold nan_to_num, map_array. cbn [shape data]. by rewrite H.
Qed.

(** Two timesteps on a 2x2 grid with an all-ones mask: the per-timestep
    means would be 2.5 and 6.5; the code raises. *)
Example spatial_mean_two_timesteps :
  np_average (mk_ndarray [2; 2; 2] [1; 2; 3; 4; 5; 6; 7; 8]%float)
             (mk_ndarray [2; 2] [1; 1; 1; 1]%float) =
    Raise (TypeError "Axis must be specified when shapes of a and weights differ.")
  /\ np_average (mk_ndarray [2; 2] [1; 2; 3; 4]%float)
                (mk_ndarray [2; 2] [1; 1; 1; 1]%float) = Ok 2.5%float.
Proof. split; reflexivity. Qed.




(** ** Solar capacity factor *)

(** C4.  On the design's example (T = 25 and irradiance = 1000 in one cell
    at one timestep, all-ones mask) [solar_PV_model] raises [NameError]: the
    body reads [Masked_T2m], not its parameter.  Even with the three names
    bound to the same fields and mask the average raises, as in C2.  Only
    when the names are bound to single [lat, lon] slices does the call
    return, and then the value is 0.9. *)
Theorem solar_PV_model_example_raises :
  solar_PV_model module_globals T25 G1000 = Raise (NameError "Masked_T2m")
  /\ solar_PV_model (bound_globals T25 G1000 ones_1x1) T25 G1000 =
       Raise (TypeError "Axis must be specified when shapes of a and weights differ.")
  /\ solar_PV_model
       (bound_globals (mk_ndarray [1; 1] [25%float])
                      (mk_ndarray [1; 1] [1000%float]) ones_1x1) T25 G1000 =
       Ok 0.9%float.
Proof. repeat split; vm_compute; reflexivity. Qed.

(** C10.  The result of [solar_PV_model] does not depend on its two
    parameters, and with the module globals as the file defines them every
    call raises [NameError] for [Masked_T2m]. *)
Theorem solar_PV_model_ignores_arguments :
  (forall (G : globals) (T2m ssrd T2m' ssrd' : ndarray),
     solar_PV_model G T2m ssrd = solar_PV_model G T2m' ssrd')
  /\ (forall (T2m ssrd : ndarray),
        solar_PV_model module_globals T2m ssrd = Raise (NameError "Masked_T2m")).
Proof. split; intros; reflexivity. Qed.

(** The three names are all that the result depends on. *)
Lemma solar_PV_model_reads_three_names (G G' : globals) a b :
  G !! "Masked_T2m" = G' !! "Masked_T2m" ->
  G !! "Masked_SWGDN" = G' !! "Masked_SWGDN" ->
  G !! "MASK_MATRIX_RESHAPE" = G' !! "MASK_MATRIX_RESHAPE" ->
  solar_PV_model G a b = solar_PV_model G' a b.
Proof.
  intros H1 H2 H3. unfold solar_PV_model, load_global. by rewrite H1, H2, H3.
Qed.

(** ** Demand *)

(** C5.  [calc_national_wd_demand_2017] reads only the unbound name
    [demand_timeseries]: on the design's example, and for all arguments, the
    call raises [NameError] and no demand series is returned. *)
Theorem calc_national_wd_demand_2017_raises :
  calc_national_wd_demand_2017 module_globals
    (array1 [1; 0]%float) (array1 [0; 1]%float) "coefficients.csv" "Czech_Republic"
    = Raise (NameError "demand_timeseries")
  /\ forall (hdd cdd : ndarray) (filestr_reg_coefficients COUNTRY : string),
       calc_national_wd_demand_2017 module_globals hdd cdd
         filestr_reg_coefficients COUNTRY = Raise (NameError "demand_timeseries").
Proof. split; intros; reflexivity. Qed.

(** ** Mask construction and loading *)

(** C7.  On every grid of 1-D coordinates and for every list of matching
    geometries, a mask that is constructed has the shape of the grid,
    (latitudes, longitudes), and each entry is 0.0 or 1.0; with at least one
    matching geometry the mask is always constructed.  The only failure is
    the empty list of geometries. *)
Theorem mask_shape_and_values {G : Type} `{!Geometry G}
    (country_shapely : list G) (lons lats : list float) :
  match build_mask country_shapely (array1 lons) (array1 lats) with
  | Ok mask =>
      shape mask = [length lats; length lons]
      /\ size mask = length lats * length lons
      /\ Forall (fun v => v = 0%float \/ v = 1%float) (data mask)
  | Raise e =>
      country_shapely = [] /\ e = IndexError "list index out of range"
  end.
Proof.
  destruct country_shapely as [|g rest].
  - unfold build_mask.
    destruct (meshgrid_sizes (array1 lons) (array1 lats)) as [Hx Hy].
    destruct (meshgrid (array1 lons) (array1 lats)) as [LONS LATS].
    cbn [fst snd] in *. change (size (array1 lons)) with (length lons) in *.
    change (size (array1 lats)) with (length lats) in *.
    destruct (length lats * length lons) as [|n] eqn:Hn.
    + rewrite Hx. cbn [seq for_each]. rewrite bind_Ok.
      cbn [array_len array1 shape]. rewrite !bind_Ok.
      unfold reshape2, size, zeros. cbn [data prod_shape foldr Nat.mul replicate length].
      rewrite Hn. cbn [Nat.eqb shape data length]. by repeat split.
    + rewrite Hx, mask_loop_empty by lia. by rewrite bind_Raise.
  - rewrite build_mask_first. cbn zeta. unfold size. cbn [shape data].
    split; [done|]. split.
    + by rewrite length_fmap, length_seq.
    + apply Forall_fmap, Forall_forall. intros k _. apply cell_0_or_1.
Qed.




(** The second part is reached: the cell (2, 51) lies in [part_B] only and
    the mask has 1.0 there. *)
Example archipelago_mask :
  build_mask (matching_geometries archipelago_records "Atlantis")
    (array1 [0; 1; 2]%float) (array1 [50; 51]%float)
  = Ok (mk_ndarray [2; 3] [0; 1; 0; 0; 0; 1]%float).
Proof. vm_compute. reflexivity. Qed.

(** C8.  Both loaders convert the variable they read in the same way:
    "t2m" has 273.15 subtracted from every value, "ssrd" has every value
    divided by 3600, any other variable is left as read.  The plain loader
    returns that field; the country loader returns it multiplied by the
    mask. *)
Theorem loader_unit_conversions (fs : filesystem)
    (data_dir filename nc_key : string) (ds : dataset) (lons lats raw : ndarray) :
  fs !! (data_dir +:+ filename) = Some ds ->
  ds !! "longitude" = Some lons ->
  ds !! "latitude" = Some lats ->
  ds !! nc_key = Some raw ->
  let field :=
    if decide (nc_key = "t2m") then
      mk_ndarray (shape raw) ((fun v => v - 273.15)%float <$> data raw)
    else if decide (nc_key = "ssrd") then
      mk_ndarray (shape raw) ((fun v => v / 3600)%float <$> data raw)
    else raw in
  load_weather_data_daily fs data_dir filename nc_key = Ok (field, lons, lats)
  /\ forall (G : Type) (geo : Geometry G) (records : list (country_record G))
            (COUNTRY : string),
       load_country_weather_data records fs COUNTRY data_dir filename nc_key =
         (mask ← build_mask (matching_geometries records COUNTRY) lons lats;
          masked ← binop PrimFloat.mul field mask;
          Ok (masked, mask)).
Proof.
  intros Hfs Hlon Hlat Hraw field.
  assert (convert_units nc_key raw = field) as Hconv.
  { unfold convert_units, field.
    destruct (String.eqb_spec nc_key "t2m") as [->|Hne1].
    - reflexivity.
    - rewrite decide_False by done.
      destruct (String.eqb_spec nc_key "ssrd") as [->|Hne2].
      + reflexivity.
      + by rewrite decide_False. }
  split.
  - unfold load_weather_data_daily, Dataset, variable.
    rewrite Hfs, bind_Ok, Hlon, bind_Ok, Hlat, bind_Ok, Hraw, bind_Ok.
    by rewrite <- Hconv.
  - intros G geo records COUNTRY.
    unfold load_country_weather_data, Dataset, variable.
    rewrite Hfs, bind_Ok, Hlon, bind_Ok, Hlat, bind_Ok, Hraw, bind_Ok.
    by rewrite Hconv.
Qed.

Lemma loader_unit_conversions_witness :
  load_weather_data_daily fs_example "/data/" "era5.nc" "t2m" =
    Ok (mk_ndarray [1; 2; 3] [0; 10; 20; 0; 10; 20]%float,
        array1 [0; 1; 2]%float, array1 [50; 51]%float).
Proof.
  exact (proj1 (loader_unit_conversions fs_example "/data/" "era5.nc" "t2m" era5_example
                  (array1 [0; 1; 2]%float) (array1 [50; 51]%float) t2m_raw
                  eq_refl eq_refl eq_refl eq_refl)).
Defined.

(** C9, as stated, fails on two inputs.  A country that matches no record,
    read on a file whose longitude axis is empty, makes the loader return an
    (empty) mask and masked field instead of raising.  And the failure is
    not immediate: with a missing file the caller sees the file error, which
    is no [LookupError]. *)
Lemma no_polygon_not_always_lookup_error :
  matching_geometries atlantis_records "Nowhere" = []
  /\ load_country_weather_data atlantis_records fs_no_lon
       "Nowhere" "/data/" "era5.nc" "t2m"
     = Ok (mk_ndarray [1; 2; 0] [], mk_ndarray [2; 0] [])
  /\ load_country_weather_data atlantis_records fs_example
       "Nowhere" "/data/" "missing.nc" "t2m"
     = Raise (FileNotFoundError "/data/missing.nc")
  /\ is_LookupError (FileNotFoundError "/data/missing.nc") = false.
Proof. repeat split; vm_compute; reflexivity. Qed.

(** C9, amended.  When no record matches the country name, the file and its
    three variables are read, and the grid has at least one point, the mask
    loop raises [IndexError] (a [LookupError]) at its first point: neither a
    mask nor masked data is returned. *)
Theorem no_polygon_raises_IndexError {G : Type} `{!Geometry G}
    (records : list (country_record G)) (fs : filesystem)
    (COUNTRY data_dir filename nc_key : string)
    (ds : dataset) (lons lats raw : ndarray) :
  matching_geometries records COUNTRY = [] ->
  fs !! (data_dir +:+ filename) = Some ds ->
  ds !! "longitude" = Some lons ->
  ds !! "latitude" = Some lats ->
  ds !! nc_key = Some raw ->
  0 < size lons -> 0 < size lats ->
  load_country_weather_data records fs COUNTRY data_dir filename nc_key
    = Raise (IndexError "list index out of range")
  /\ is_LookupError (IndexError "list index out of range") = true.
Proof.
  intros Hnone Hfs Hlon Hlat Hraw Hnx Hny. split; [|reflexivity].
  unfold load_country_weather_data, Dataset, variable.
  rewrite Hfs, bind_Ok, Hlon, bind_Ok, Hlat, bind_Ok, Hraw, bind_Ok, Hnone.
  unfold build_mask.
  destruct (meshgrid_sizes lons lats) as [Hx Hy].
  destruct (meshgrid lons lats) as [LONS LATS]. cbn [fst snd] in *.
  destruct (size lats * size lons) as [|n] eqn:Hn; [nia|].
  rewrite Hx, mask_loop_empty by lia. reflexivity.
Qed.

Lemma no_polygon_raises_IndexError_witness :
  load_country_weather_data atlantis_records fs_example "Nowhere" "/data/" "era5.nc" "t2m"
    = Raise (IndexError "list index out of range")
  /\ is_LookupError (IndexError "list index out of range") = true.
Proof.
  apply (no_polygon_raises_IndexError atlantis_records fs_example "Nowhere" "/data/" "era5.nc" "t2m"
           era5_example (array1 [0; 1; 2]%float) (array1 [50; 51]%float) t2m_raw);
    try reflexivity; unfold size; simpl; lia.
Defined.

(** * Further properties of the two modules *)

(** ** Broadcasting a field against the mask *)

Lemma length_chunk_take {A} k (d : list A) n :
  length d = S n * k -> length (take k d) = k /\ length (drop k d) = n * k.
Proof. intros H. rewrite length_take, length_drop. lia. Qed.

Lemma join_chunks m k (d : list float) :
  length d = m * k -> mjoin (chunks m k d) = d.
Proof.
  revert d. induction m as [|m IH]; intros d H.
  - by destruct d.
  - destruct (length_chunk_take k d m H) as [_ Hd].
    change (take k d ++ mjoin (chunks m k (drop k d)) = d).
    rewrite (IH _ Hd). apply take_drop.
Qed.

Lemma chunks_lengths m k (d : list float) :
  length d = m * k -> Forall (fun c => length c = k) (chunks m k d).
Proof.
  revert d. induction m as [|m IH]; intros d H; cbn [chunks]; [constructor|].
  destruct (length_chunk_take k d m H) as [Ht Hd]. constructor; auto.
Qed.

(** An array broadcast to its own shape is unchanged. *)
Lemma broadcast_data_same s : forall d,
  length d = prod_shape s -> broadcast_data s s d = d.
Proof.
  induction s as [|n s IH]; intros d H; [done|].
  cbn [broadcast_data]. rewrite Nat.ltb_irrefl, Nat.eqb_refl.
  cbn [prod_shape foldr] in H. fold (prod_shape s) in H.
  rewrite <- (join_chunks n (prod_shape s) d H) at 2. f_equal.
  pose proof (chunks_lengths n (prod_shape s) d H) as Hc.
  induction Hc as [|c cs Hc _ IHc]; [done|].
  rewrite fmap_cons. f_equal; [by apply IH | exact IHc].
Qed.

(** A [lat, lon] array broadcast against [time, lat, lon] is repeated once
    per timestep. *)
Lemma broadcast_data_time nt ny nx d :
  length d = ny * nx ->
  broadcast_data [nt; ny; nx] [ny; nx] d = mjoin (replicate nt d).
Proof.
  intros H. cbn [broadcast_data length]. cbn [Nat.ltb Nat.leb].
  do 2 f_equal. apply (broadcast_data_same [ny; nx]).
  cbn [prod_shape foldr]. lia.
Qed.

Lemma broadcast_shapes_time nt ny nx :
  broadcast_shapes [nt; ny; nx] [ny; nx] = Some [nt; ny; nx].
Proof.
  unfold broadcast_shapes. cbn [reverse rev_append broadcast_rev].
  by rewrite !Nat.eqb_refl.
Qed.

(** The product of a [time, lat, lon] field and a [lat, lon] mask. *)
Lemma binop_field_mask f nt ny nx d m :
  length d = nt * (ny * nx) -> length m = ny * nx ->
  binop f (mk_ndarray [nt; ny; nx] d) (mk_ndarray [ny; nx] m) =
    Ok (mk_ndarray [nt; ny; nx] (zip_with f d (mjoin (replicate nt m)))).
Proof.
  intros Hd Hm. unfold binop. cbn [shape data].
  rewrite broadcast_shapes_time, broadcast_data_time by done.
  rewrite (broadcast_data_same [nt; ny; nx]); [done|].
  cbn [prod_shape foldr]. lia.
Qed.

(** ** The country loader on a gridded field *)

Lemma convert_units_converted nc_key (a : ndarray) :
  convert_units nc_key a = map_array (converted nc_key) a.
Proof.
  unfold convert_units, converted, map_array.
  destruct (String.eqb_spec nc_key "t2m") as [->|Hne1]; [done|].
  destruct (String.eqb_spec nc_key "ssrd") as [->|Hne2]; [done|].
  destruct a as [sh d]; cbn [shape data]. f_equal.
  rewrite <- (list_fmap_id d) at 1. apply list_fmap_ext. intros i v _.
  by rewrite !decide_False.
Qed.

Lemma grid_mask_lookup {G : Type} `{!Geometry G} (g : G) (xs ys : list float)
    j i lo la :
  xs !! i = Some lo -> ys !! j = Some la ->
  grid_mask g xs ys !! (j * length xs + i) =
    Some (if contains g lo la then 1%float else 0%float).
Proof.
  intros Hi Hj.
  pose proof (lookup_lt_Some _ _ _ Hi) as Hilt.
  pose proof (lookup_lt_Some _ _ _ Hj) as Hjlt.
  unfold grid_mask. rewrite list_lookup_fmap, lookup_seq_lt by nia.
  cbn [fmap option_fmap option_map Nat.add]. f_equal.
  unfold cell, meshgrid, flatten, size. cbn [fst snd data array1].
  rewrite lookup_join_replicate, lookup_join_rows, Hi, Hj by done.
  reflexivity.
Qed.

Section GriddedField.
Context {G : Type} `{!Geometry G}.
Variables (records : list (country_record G)) (fs : filesystem).
Variables (COUNTRY data_dir filename nc_key : string).
Variables (ds : dataset) (xs ys : list float) (nt : nat) (d : list float).
Variables (g : G) (rest : list G).
Hypothesis Hfile : fs !! (data_dir +:+ filename) = Some ds.
Hypothesis Hlon : ds !! "longitude" = Some (array1 xs).
Hypothesis Hlat : ds !! "latitude" = Some (array1 ys).
Hypothesis Hvar :
  ds !! nc_key = Some (mk_ndarray [nt; length ys; length xs] d).
Hypothesis Hsize : length d = nt * (length ys * length xs).
Hypothesis Hmatch : matching_geometries records COUNTRY = g :: rest.

Lemma load_country_gridded :
  load_country_weather_data records fs COUNTRY data_dir filename nc_key =
    Ok (mk_ndarray [nt; length ys; length xs]
          (zip_with PrimFloat.mul (converted nc_key <$> d)
                    (mjoin (replicate nt (grid_mask g xs ys)))),
        mk_ndarray [length ys; length xs] (grid_mask g xs ys)).
Proof using All.
  unfold load_country_weather_data, Dataset, variable.
  rewrite Hfile, bind_Ok, Hlon, bind_Ok, Hlat, bind_Ok, Hvar, bind_Ok, Hmatch.
  rewrite build_mask_first. cbn zeta. rewrite bind_Ok.
  rewrite convert_units_converted. unfold map_array. cbn [shape data].
  fold (grid_mask g xs ys). rewrite binop_field_mask; [done| |].
  - by rewrite length_fmap.
  - unfold grid_mask. by rewrite length_fmap, length_seq.
Qed.

End GriddedField.

Lemma matching_geometries_skip {G : Type}
    (pre l : list (country_record G)) COUNTRY :
  Forall (fun r => NAME_LONG r <> COUNTRY) pre ->
  matching_geometries (pre ++ l) COUNTRY = matching_geometries l COUNTRY.
Proof.
  intros Hpre. rewrite !matching_geometries_filter, filter_app, fmap_app.
  replace (filter (fun c => NAME_LONG c = COUNTRY) pre) with (@nil (country_record G));
    [done|].
  induction Hpre as [|r pre Hr _ IH]; [done|].
  by rewrite filter_cons, decide_False.
Qed.

(** X1.  On a gridded field -- 1-D coordinates, a variable of shape
    [time, lat, lon], at least one record named [COUNTRY] -- the loader
    returns, and cell (j, i) of the returned mask is 1.0 when the geometry
    of the first such record contains the point (lons[i], lats[j]) and 0.0
    otherwise. *)
Theorem country_mask_cell_of_first_record {G : Type} `{!Geometry G}
    (records : list (country_record G)) (fs : filesystem)
    (COUNTRY data_dir filename nc_key : string) (ds : dataset)
    (xs ys : list float) (nt : nat) (d : list float) (g : G) (rest : list G)
    (j i : nat) (lo la : float) :
  fs !! (data_dir +:+ filename) = Some ds ->
  ds !! "longitude" = Some (array1 xs) ->
  ds !! "latitude" = Some (array1 ys) ->
  ds !! nc_key = Some (mk_ndarray [nt; length ys; length xs] d) ->
  length d = nt * (length ys * length xs) ->
  matching_geometries records COUNTRY = g :: rest ->
  xs !! i = Some lo -> ys !! j = Some la ->
  exists masked mask,
    load_country_weather_data records fs COUNTRY data_dir filename nc_key
      = Ok (masked, mask)
    /\ shape mask = [length ys; length xs]
    /\ data mask !! (j * length xs + i) =
         Some (if contains g lo la then 1%float else 0%float).
Proof.
  intros Hfile Hlon Hlat Hvar Hsize Hmatch Hi Hj.
  eexists _, _. split.
  - by apply (load_country_gridded records fs COUNTRY data_dir filename nc_key
                ds xs ys nt d g rest).
  - split; [reflexivity|]. cbn [data]. by apply grid_mask_lookup.
Qed.

Lemma country_mask_cell_of_first_record_witness :
  exists masked mask,
    load_country_weather_data atlantis_records fs_example
      "Atlantis" "/data/" "era5.nc" "t2m" = Ok (masked, mask)
    /\ shape mask = [2; 3]
    /\ data mask !! (0 * 3 + 1) =
         Some (if contains part_A 1%float 50%float then 1%float else 0%float).
Proof.
  exact (country_mask_cell_of_first_record atlantis_records fs_example
           "Atlantis" "/data/" "era5.nc" "t2m" era5_example
           [0; 1; 2]%float [50; 51]%float 1 (data t2m_raw) part_A [part_B]
           0 1 1%float 50%float
           eq_refl eq_refl eq_refl eq_refl eq_refl eq_refl eq_refl eq_refl).
Defined.

(** X2.  On a gridded field the masked data keep the shape of the variable,
    and the value at timestep [t], cell (j, i) is the unit-converted value
    of the file multiplied by the mask value of that cell: the same mask is
    applied at every timestep, after the unit conversion. *)
Theorem country_masked_field_elementwise {G : Type} `{!Geometry G}
    (records : list (country_record G)) (fs : filesystem)
    (COUNTRY data_dir filename nc_key : string) (ds : dataset)
    (xs ys : list float) (nt : nat) (d : list float) (g : G) (rest : list G)
    (t j i : nat) (v lo la : float) :
  fs !! (data_dir +:+ filename) = Some ds ->
  ds !! "longitude" = Some (array1 xs) ->
  ds !! "latitude" = Some (array1 ys) ->
  ds !! nc_key = Some (mk_ndarray [nt; length ys; length xs] d) ->
  length d = nt * (length ys * length xs) ->
  matching_geometries records COUNTRY = g :: rest ->
  xs !! i = Some lo -> ys !! j = Some la ->
  d !! (t * (length ys * length xs) + (j * length xs + i)) = Some v ->
  exists masked mask,
    load_country_weather_data records fs COUNTRY data_dir filename nc_key
      = Ok (masked, mask)
    /\ shape masked = [nt; length ys; length xs]
    /\ data masked !! (t * (length ys * length xs) + (j * length xs + i)) =
         Some (converted nc_key v *
               (if contains g lo la then 1 else 0))%float.
Proof.
  intros Hfile Hlon Hlat Hvar Hsize Hmatch Hi Hj Hv.
  eexists _, _. split.
  - by apply (load_country_gridded records fs COUNTRY data_dir filename nc_key
                ds xs ys nt d g rest).
  - split; [reflexivity|]. cbn [data].
    pose proof (lookup_lt_Some _ _ _ Hi) as Hilt.
    pose proof (lookup_lt_Some _ _ _ Hj) as Hjlt.
    pose proof (lookup_lt_Some _ _ _ Hv) as Hvlt.
    assert (length (grid_mask g xs ys) = length ys * length xs) as Hlen
      by (unfold grid_mask; by rewrite length_fmap, length_seq).
    assert (t < nt) as Ht by nia.
    rewrite lookup_zip_with, list_lookup_fmap, Hv. cbn [fmap option_fmap option_map mbind option_bind].
    rewrite <- Hlen at 1. rewrite lookup_join_replicate by (rewrite ?Hlen; nia).
    by rewrite (grid_mask_lookup g xs ys j i lo la Hi Hj).
Qed.

Lemma country_masked_field_elementwise_witness :
  exists masked mask,
    load_country_weather_data atlantis_records fs_example
      "Atlantis" "/data/" "era5.nc" "t2m" = Ok (masked, mask)
    /\ shape masked = [1; 2; 3]
    /\ data masked !! (0 * (2 * 3) + (0 * 3 + 1)) =
         Some (converted "t2m" 283.15 *
               (if contains part_A 1 50 then 1 else 0))%float.
Proof.
  exact (country_masked_field_elementwise atlantis_records fs_example
           "Atlantis" "/data/" "era5.nc" "t2m" era5_example
           [0; 1; 2]%float [50; 51]%float 1 (data t2m_raw) part_A [part_B]
           0 0 1 283.15%float 1%float 50%float
           eq_refl eq_refl eq_refl eq_refl eq_refl eq_refl eq_refl eq_refl
           eq_refl).
Defined.

(** X3.  The documented pipeline does not compose: what the loader returns
    for a gridded field, passed on to [calc_hdd_cdd] as its docstring
    describes, makes it raise [TypeError] at line 153, whatever the module
    globals and the data are. *)
Theorem loader_output_breaks_calc_hdd_cdd {G : Type} `{!Geometry G}
    (records : list (country_record G)) (fs : filesystem)
    (COUNTRY data_dir filename nc_key : string) (ds : dataset)
    (xs ys : list float) (nt : nat) (d : list float) (g : G) (rest : list G) :
  fs !! (data_dir +:+ filename) = Some ds ->
  ds !! "longitude" = Some (array1 xs) ->
  ds !! "latitude" = Some (array1 ys) ->
  ds !! nc_key = Some (mk_ndarray [nt; length ys; length xs] d) ->
  length d = nt * (length ys * length xs) ->
  matching_geometries records COUNTRY = g :: rest ->
  exists masked mask,
    load_country_weather_data records fs COUNTRY data_dir filename nc_key
      = Ok (masked, mask)
    /\ forall Gl : globals,
         calc_hdd_cdd Gl masked mask =
           Raise (TypeError
                    "Axis must be specified when shapes of a and weights differ.").
Proof.
  intros Hfile Hlon Hlat Hvar Hsize Hmatch.
  eexists _, _. split.
  - by apply (load_country_gridded records fs COUNTRY data_dir filename nc_key
                ds xs ys nt d g rest).
  - intros Gl. unfold calc_hdd_cdd.
    rewrite np_average_shape_mismatch; [done|].
    cbn [shape]. intros E. apply (f_equal length) in E. discriminate.
Qed.

Lemma loader_output_breaks_calc_hdd_cdd_witness :
  exists masked mask,
    load_country_weather_data atlantis_records fs_example
      "Atlantis" "/data/" "era5.nc" "t2m" = Ok (masked, mask)
    /\ forall Gl : globals,
         calc_hdd_cdd Gl masked mask =
           Raise (TypeError
                    "Axis must be specified when shapes of a and weights differ.").
Proof.
  exact (loader_output_breaks_calc_hdd_cdd atlantis_records fs_example
           "Atlantis" "/data/" "era5.nc" "t2m" era5_example
           [0; 1; 2]%float [50; 51]%float 1 (data t2m_raw) part_A [part_B]
           eq_refl eq_refl eq_refl eq_refl eq_refl eq_refl).
Defined.

(** X4.  The mask does not depend on the variable that is loaded: two calls
    on the same file, for the same country, return the same mask whatever
    the two variable keys are. *)
Theorem mask_same_for_every_variable {G : Type} `{!Geometry G}
    (records : list (country_record G)) (fs : filesystem)
    (COUNTRY data_dir filename key1 key2 : string)
    (masked1 mask1 masked2 mask2 : ndarray) :
  load_country_weather_data records fs COUNTRY data_dir filename key1
    = Ok (masked1, mask1) ->
  load_country_weather_data records fs COUNTRY data_dir filename key2
    = Ok (masked2, mask2) ->
  mask1 = mask2.
Proof.
  unfold load_country_weather_data.
  destruct (Dataset fs _) as [ds|e]; [|discriminate]. rewrite !bind_Ok.
  destruct (variable ds "longitude") as [lons|e]; [|discriminate].
  rewrite !bind_Ok.
  destruct (variable ds "latitude") as [lats|e]; [|discriminate].
  rewrite !bind_Ok.
  destruct (variable ds key1) as [d1|e]; [|discriminate].
  destruct (variable ds key2) as [d2|e]; [|discriminate].
  rewrite !bind_Ok.
  destruct (build_mask _ lons lats) as [mask|e]; [|discriminate].
  rewrite !bind_Ok.
  destruct (binop _ (convert_units key1 d1) mask) as [m1|e]; [|discriminate].
  destruct (binop _ (convert_units key2 d2) mask) as [m2|e]; [|discriminate].
  rewrite !bind_Ok. intros H1 H2. congruence.
Qed.

Lemma mask_same_for_every_variable_witness :
  load_country_weather_data atlantis_records fs_two_variables
    "Atlantis" "/data/" "era5.nc" "t2m"
    = Ok (mk_ndarray [1; 2; 3] [0; 10; 0; 0; 0; 0]%float,
          mk_ndarray [2; 3] [0; 1; 0; 0; 0; 0]%float)
  /\ load_country_weather_data atlantis_records fs_two_variables
       "Atlantis" "/data/" "era5.nc" "ssrd"
     = Ok (mk_ndarray [1; 2; 3] [0; 1; 0; 0; 0; 0]%float,
           mk_ndarray [2; 3] [0; 1; 0; 0; 0; 0]%float)
  /\ mk_ndarray [2; 3] [0; 1; 0; 0; 0; 0]%float =
     mk_ndarray [2; 3] [0; 1; 0; 0; 0; 0]%float.
Proof.
  split; [vm_compute; reflexivity|]. split; [vm_compute; reflexivity|].
  apply (mask_same_for_every_variable atlantis_records fs_two_variables
           "Atlantis" "/data/" "era5.nc" "t2m" "ssrd"
           (mk_ndarray [1; 2; 3] [0; 10; 0; 0; 0; 0]%float)
           (mk_ndarray [2; 3] [0; 1; 0; 0; 0; 0]%float)
           (mk_ndarray [1; 2; 3] [0; 1; 0; 0; 0; 0]%float)
           (mk_ndarray [2; 3] [0; 1; 0; 0; 0; 0]%float));
    vm_compute; reflexivity.
Defined.

(** X5.  Only the first record named [COUNTRY] counts: records before it
    with another name and all records after it, matching or not, change
    nothing in what the loader returns or raises. *)
Theorem first_matching_record_decides {G : Type} `{!Geometry G}
    (pre post : list (country_record G)) (c : country_record G)
    (fs : filesystem) (COUNTRY data_dir filename nc_key : string) :
  Forall (fun r => NAME_LONG r <> COUNTRY) pre ->
  NAME_LONG c = COUNTRY ->
  load_country_weather_data (pre ++ c :: post) fs COUNTRY data_dir filename nc_key
  = load_country_weather_data [c] fs COUNTRY data_dir filename nc_key.
Proof.
  intros Hpre Hc. unfold load_country_weather_data.
  rewrite (matching_geometries_skip pre (c :: post) COUNTRY Hpre).
  rewrite !matching_geometries_filter, filter_cons, decide_True by done.
  rewrite filter_cons, decide_True by done. cbn [filter list_filter fmap list_fmap].
  reflexivity.
Qed.

Lemma first_matching_record_decides_witness :
  load_country_weather_data atlantis_records fs_example
    "Utopia" "/data/" "era5.nc" "t2m"
  = load_country_weather_data [mk_country_record "Utopia" (mk_box 0 0 1 1)]
      fs_example "Utopia" "/data/" "era5.nc" "t2m".
Proof.
  apply (first_matching_record_decides
           [mk_country_record "Atlantis" part_A]
           [mk_country_record "Atlantis" part_B]
           (mk_country_record "Utopia" (mk_box 0 0 1 1))
           fs_example "Utopia" "/data/" "era5.nc" "t2m").
  - repeat constructor. discriminate.
  - reflexivity.
Defined.

(** X6.  Whatever makes the plain loader fail -- a missing file, a missing
    longitude, latitude or data variable -- makes the country loader fail
    with the same exception, for every country and boundary file: the file
    is read before any geometry is consulted. *)
Theorem loaders_fail_alike {G : Type} `{!Geometry G}
    (records : list (country_record G)) (fs : filesystem)
    (COUNTRY data_dir filename nc_key : string) (e : exn) :
  load_weather_data_daily fs data_dir filename nc_key = Raise e ->
  load_country_weather_data records fs COUNTRY data_dir filename nc_key = Raise e.
Proof.
  unfold load_weather_data_daily, load_country_weather_data.
  destruct (Dataset fs _) as [ds|e0]; [|intros [= ->]; reflexivity]. rewrite !bind_Ok.
  destruct (variable ds "longitude") as [lons|e0]; [|intros [= ->]; reflexivity]. rewrite !bind_Ok.
  destruct (variable ds "latitude") as [lats|e0]; [|intros [= ->]; reflexivity]. rewrite !bind_Ok.
  destruct (variable ds nc_key) as [raw|e0]; [|intros [= ->]; reflexivity]. rewrite !bind_Ok.
  discriminate.
Qed.

Lemma loaders_fail_alike_witness :
  load_country_weather_data atlantis_records fs_example
    "Atlantis" "/data/" "era5.nc" "ssrd" = Raise (KeyError "ssrd").
Proof.
  apply (loaders_fail_alike atlantis_records fs_example
           "Atlantis" "/data/" "era5.nc" "ssrd" (KeyError "ssrd")).
  reflexivity.
Defined.

(** X7.  The main code of the example script swaps the coordinates: the
    loader returns (data, lons, lats) and the script unpacks the triple into
    ERA5_data_jan_1979, lats, lons, so after it the name [lats] holds the
    longitudes of the file and [lons] its latitudes; the data are the 2 m
    temperatures in Celsius. *)
Theorem main_binds_lats_to_longitudes (fs : filesystem) (ds : dataset)
    (longitude latitude t2m : ndarray) :
  fs !! "/storage/silver/S2S4E/energymet/ERA5/native_grid_hourly/ERA5_1hr_1979_01_DET.nc"
    = Some ds ->
  ds !! "longitude" = Some longitude ->
  ds !! "latitude" = Some latitude ->
  ds !! "t2m" = Some t2m ->
  exists namespace,
    main fs = Ok namespace
    /\ namespace !! "lats" = Some (VNum longitude)
    /\ namespace !! "lons" = Some (VNum latitude)
    /\ namespace !! "ERA5_data_jan_1979" =
         Some (VNum (map_array (fun v => v - 273.15)%float t2m)).
Proof.
  intros Hfs Hlon Hlat Hvar. unfold main, load_weather_data_daily, Dataset, variable.
  change (String.append
            "/storage/silver/S2S4E/energymet/ERA5/native_grid_hourly/"
            "ERA5_1hr_1979_01_DET.nc")
    with "/storage/silver/S2S4E/energymet/ERA5/native_grid_hourly/ERA5_1hr_1979_01_DET.nc".
  rewrite Hfs, bind_Ok, Hlon, bind_Ok, Hlat, bind_Ok, Hvar, bind_Ok.
  eexists. split; [reflexivity|]. repeat split; reflexivity.
Qed.

Lemma main_binds_lats_to_longitudes_witness :
  exists namespace,
    main fs_main = Ok namespace
    /\ namespace !! "lats" = Some (VNum (array1 [0; 1; 2]%float))
    /\ namespace !! "lons" = Some (VNum (array1 [50; 51]%float))
    /\ namespace !! "ERA5_data_jan_1979" =
         Some (VNum (map_array (fun v => v - 273.15)%float t2m_raw)).
Proof.
  exact (main_binds_lats_to_longitudes fs_main era5_example
           (array1 [0; 1; 2]%float) (array1 [50; 51]%float) t2m_raw
           eq_refl eq_refl eq_refl eq_refl).
Defined.

(** ** Why [calc_hdd_cdd] fails *)

(** X8.  The exception of [calc_hdd_cdd] is decided by its two arguments
    alone: [TypeError] at line 153 when their shapes differ,
    [ZeroDivisionError] there when the shapes agree and the weights sum to
    zero, and otherwise [TypeError] at line 154, [len] of a scalar.  The
    module globals play no part: the unbound [len_of_training_period] is
    never reached, and binding it changes nothing. *)
Theorem calc_hdd_cdd_failure_classified (Gl : globals) (a w : ndarray) :
  calc_hdd_cdd Gl a w =
    if bool_decide (shape a = shape w) then
      if PrimFloat.eqb (np_sum (data w)) 0%float
      then Raise (ZeroDivisionError "Weights sum to zero, can't be normalized")
      else Raise (TypeError "object of type 'numpy.float64' has no len()")
    else
      Raise (TypeError "Axis must be specified when shapes of a and weights differ.").
Proof.
  unfold calc_hdd_cdd, np_average.
  destruct (bool_decide (shape a = shape w)); [|reflexivity].
  cbn zeta. destruct (PrimFloat.eqb (np_sum (data w)) 0%float); reflexivity.
Qed.

(** ** The solar model when the names it reads are bound *)

Lemma nan_to_num1_finite x :
  PrimFloat.is_nan (nan_to_num1 x) = false /\
  PrimFloat.is_infinity (nan_to_num1 x) = false.
Proof.
  unfold nan_to_num1.
  destruct (PrimFloat.is_nan x) eqn:Hn; [split; reflexivity|].
  destruct (PrimFloat.eqb x infinity) eqn:H1; [split; reflexivity|].
  destruct (PrimFloat.eqb x neg_infinity) eqn:H2; [split; reflexivity|].
  split; [exact Hn|]. unfold PrimFloat.is_infinity.
  rewrite FloatAxioms.eqb_spec, FloatAxioms.abs_spec.
  rewrite FloatAxioms.eqb_spec in H1, H2.
  change (Prim2SF infinity) with (S754_infinity false) in *.
  change (Prim2SF neg_infinity) with (S754_infinity true) in *.
  destruct (Prim2SF x) as [s|s| |s m e]; try reflexivity; destruct s; done.
Qed.

Lemma capacity_factors_zip (ts gs : list float) :
  nan_to_num1 <$>
    zip_with PrimFloat.mul
      ((fun t => 0.9 * (1 - 0.0042 * (t - 25)))%float <$> ts)
      ((fun g => g / 1000)%float <$> gs)
  = zip_with panel_capacity_factor ts gs.
Proof.
  revert gs. induction ts as [|t ts IH]; intros [|g gs]; try reflexivity.
  simpl. f_equal. apply IH.
Qed.

(** X9.  With the three names bound to arrays of one shape -- temperature,
    irradiance and weights -- and a non-zero weight sum, [solar_PV_model]
    returns ONE number, whatever its arguments: the weighted mean, over all
    elements, of the per-cell capacity factors
    nan_to_num(0.9 (1 - 0.0042 (T - 25)) (G / 1000)); each of them is finite. *)
Theorem solar_PV_model_weighted_mean (Gl : globals) (s : list nat)
    (ts gs ws : list float) (a b : ndarray) :
  Gl !! "Masked_T2m" = Some (VNum (mk_ndarray s ts)) ->
  Gl !! "Masked_SWGDN" = Some (VNum (mk_ndarray s gs)) ->
  Gl !! "MASK_MATRIX_RESHAPE" = Some (VNum (mk_ndarray s ws)) ->
  length ts = prod_shape s -> length gs = prod_shape s ->
  PrimFloat.eqb (np_sum ws) 0%float = false ->
  let cf := zip_with panel_capacity_factor ts gs in
  solar_PV_model Gl a b =
    Ok (np_sum (zip_with PrimFloat.mul cf ws) / np_sum ws)%float
  /\ Forall (fun c => PrimFloat.is_nan c = false /\
                      PrimFloat.is_infinity c = false) cf.
Proof.
  intros HT HG HM Hts Hgs Hsum cf. split.
  - unfold solar_PV_model, load_global. rewrite HT, HG, HM.
    cbn [mbind result_bind to_num]. unfold binop, map_array. cbn [shape data].
    rewrite broadcast_shapes_same.
    rewrite !broadcast_data_same by (by rewrite length_fmap).
    cbn [mbind result_bind]. unfold nan_to_num, map_array. cbn [shape data].
    rewrite capacity_factors_zip. fold cf.
    rewrite np_average_value by done. reflexivity.
  - unfold cf. clear. revert gs.
    induction ts as [|t ts IH]; intros [|g gs]; try constructor.
    + apply nan_to_num1_finite.
    + apply IH.
Qed.

Lemma solar_PV_model_weighted_mean_witness :
  solar_PV_model
    (bound_globals (mk_ndarray [1; 2] [25; 35]%float)
                   (mk_ndarray [1; 2] [1000; 500]%float)
                   (mk_ndarray [1; 2] [1; 1]%float)) T25 G1000 =
    Ok (np_sum (zip_with PrimFloat.mul
                  (zip_with panel_capacity_factor [25; 35] [1000; 500])
                  [1; 1]) / np_sum [1; 1])%float
  /\ Forall (fun c => PrimFloat.is_nan c = false /\
                      PrimFloat.is_infinity c = false)
       (zip_with panel_capacity_factor [25; 35] [1000; 500])%float.
Proof.
  exact (solar_PV_model_weighted_mean
           (bound_globals (mk_ndarray [1; 2] [25; 35]%float)
                          (mk_ndarray [1; 2] [1000; 500]%float)
                          (mk_ndarray [1; 2] [1; 1]%float))
           [1; 2] [25; 35]%float [1000; 500]%float [1; 1]%float T25 G1000
           eq_refl eq_refl eq_refl eq_refl eq_refl eq_refl).
Defined.

(** X10.  [solar_PV_model] returns only if all three names it reads are
    bound in the module globals. *)
Theorem solar_PV_model_needs_three_globals (Gl : globals) (a b : ndarray)
    (r : float) :
  solar_PV_model Gl a b = Ok r ->
  is_Some (Gl !! "Masked_T2m") /\ is_Some (Gl !! "Masked_SWGDN")
  /\ is_Some (Gl !! "MASK_MATRIX_RESHAPE").
Proof.
  unfold solar_PV_model, load_global.
  destruct (Gl !! "Masked_T2m") as [t|]; [|discriminate].
  cbn [mbind result_bind]. destruct (to_num t) as [tn|e]; [|discriminate].
  rewrite bind_Ok.
  destruct (Gl !! "Masked_SWGDN") as [g|]; [|discriminate].
  cbn [mbind result_bind]. destruct (to_num g) as [gn|e]; [|discriminate].
  rewrite bind_Ok. destruct (binop _ _ _) as [p|e]; [|discriminate].
  rewrite bind_Ok.
  destruct (Gl !! "MASK_MATRIX_RESHAPE") as [m|]; [|discriminate].
  intros _. repeat split; by eexists.
Qed.

Lemma solar_PV_model_needs_three_globals_witness :
  is_Some (bound_globals (mk_ndarray [1; 1] [25%float])
             (mk_ndarray [1; 1] [1000%float]) ones_1x1 !! "Masked_T2m")
  /\ is_Some (bound_globals (mk_ndarray [1; 1] [25%float])
                (mk_ndarray [1; 1] [1000%float]) ones_1x1 !! "Masked_SWGDN")
  /\ is_Some (bound_globals (mk_ndarray [1; 1] [25%float])
                (mk_ndarray [1; 1] [1000%float]) ones_1x1 !! "MASK_MATRIX_RESHAPE").
Proof.
  apply (solar_PV_model_needs_three_globals
           (bound_globals (mk_ndarray [1; 1] [25%float])
                          (mk_ndarray [1; 1] [1000%float]) ones_1x1)
           T25 G1000 0.9%float).
  vm_compute. reflexivity.
Defined.

(** A cell without irradiance: the product with a zero is a zero or, for
    an infinite or undefined efficiency, NaN. *)
Lemma mul_zero_spec (e z : float) s :
  Prim2SF z = S754_zero s ->
  Prim2SF (e * z) = S754_nan \/ exists s', Prim2SF (e * z) = S754_zero s'.
Proof.
  intros Hz. rewrite FloatAxioms.mul_spec, Hz. unfold SF64mul.
  destruct (Prim2SF e) as [se|se| |se me ee]; simpl; eauto.
Qed.

Lemma nan_to_num1_of_zero_or_nan (y : float) :
  (Prim2SF y = S754_nan \/ exists s, Prim2SF y = S754_zero s) ->
  PrimFloat.eqb (nan_to_num1 y) 0%float = true.
Proof.
  intros Hy. unfold nan_to_num1, PrimFloat.is_nan.
  destruct (PrimFloat.eqb y y) eqn:Hyy; cbn [negb]; [|reflexivity].
  rewrite FloatAxioms.eqb_spec in Hyy.
  destruct Hy as [Hy|[s Hy]]; rewrite Hy in Hyy; [discriminate|].
  destruct (PrimFloat.eqb y infinity) eqn:H1.
  { rewrite FloatAxioms.eqb_spec, Hy in H1. discriminate. }
  destruct (PrimFloat.eqb y neg_infinity) eqn:H2.
  { rewrite FloatAxioms.eqb_spec, Hy in H2. discriminate. }
  rewrite FloatAxioms.eqb_spec, Hy. reflexivity.
Qed.

(** X11.  Where the irradiance is zero (of either sign) the capacity factor
    of the cell is zero, whatever the temperature is -- also for a NaN or an
    infinite temperature, whose product with zero [nan_to_num] turns into
    0.0. *)
Theorem no_irradiance_no_capacity (t : float) :
  PrimFloat.eqb (panel_capacity_factor t 0) 0%float = true
  /\ PrimFloat.eqb (panel_capacity_factor t (-0)) 0%float = true.
Proof.
  unfold panel_capacity_factor. split.
  - change (0 / 1000)%float with 0%float.
    apply nan_to_num1_of_zero_or_nan, (mul_zero_spec _ _ false). reflexivity.
  - change (-0 / 1000)%float with (-0)%float.
    apply nan_to_num1_of_zero_or_nan, (mul_zero_spec _ _ true). reflexivity.
Qed.

(** ** The threshold loops *)

(** No temperature is at most 15.5 and at least 22.0. *)
Lemma thresholds_exclude (t : float) :
  (t <=? 15.5)%float = false \/ (22.0 <=? t)%float = false.
Proof.
  destruct (t <=? 15.5)%float eqn:H1; [|by left].
  destruct (22.0 <=? t)%float eqn:H2; [|by right].
  exfalso. rewrite FloatAxioms.leb_spec in H1, H2.
  change (Prim2SF 15.5) with (S754_finite false 8725724278030336 (-49)) in H1.
  change (Prim2SF 22.0) with (S754_finite false 6192449487634432 (-48)) in H2.
  destruct (Prim2SF t) as [s|s| |s m e]; try discriminate.
  - destruct s; discriminate.
  - destruct s; [discriminate|].
    unfold SFleb, SFcompare in H1, H2.
    destruct (Z.compare_spec e (-49)) as [He|He|He];
      destruct (Z.compare_spec (-48) e) as [He'|He'|He'];
      try lia; discriminate.
Qed.

(** X12.  The two loops of [calc_hdd_cdd], run over range(len(T)) on a 1-D
    series T with zero arrays of its length, do not raise and fill
    HDD[i] = 15.5 - T[i] where T[i] <= 15.5 and 0 elsewhere,
    CDD[i] = T[i] - 22.0 where T[i] >= 22.0 and 0 elsewhere; at no timestep
    do both loops take their first branch (a NaN temperature takes
    neither). *)
Theorem threshold_loops_on_series (T : list float) :
  for_each (HDD_body (array1 T)) (zeros [length T]) (seqZ 0 (Z.of_nat (length T)))
    = Ok (array1 ((fun t => if t <=? 15.5 then 15.5 - t else 0)%float <$> T))
  /\ for_each (CDD_body (array1 T)) (zeros [length T]) (seqZ 0 (Z.of_nat (length T)))
    = Ok (array1 ((fun t => if 22.0 <=? t then t - 22.0 else 0)%float <$> T))
  /\ Forall (fun t => (t <=? 15.5)%float = false \/ (22.0 <=? t)%float = false) T.
Proof.
  split; [apply HDD_loop|]. split; [apply CDD_loop|].
  apply Forall_forall. intros t _. apply thresholds_exclude.
Qed.

(** ** A field on another grid *)

Lemma broadcast_shapes_last_axis sh n0 n1 n2 :
  n2 <> n1 -> n2 <> 1 -> n1 <> 1 ->
  broadcast_shapes (sh ++ [n2]) [n0; n1] = None.
Proof.
  intros H1 H2 H3. unfold broadcast_shapes.
  rewrite reverse_app. cbn [reverse rev_append app broadcast_rev].
  apply Nat.eqb_neq in H1, H2, H3. by rewrite H1, H2, H3.
Qed.

(** X13.  A variable whose last extent differs from the number of
    longitudes, neither being 1, is rejected: once the mask is built the
    product with it raises [ValueError], and nothing is returned. *)
Theorem field_on_other_grid_raises {G : Type} `{!Geometry G}
    (records : list (country_record G)) (fs : filesystem)
    (COUNTRY data_dir filename nc_key : string) (ds : dataset)
    (xs ys : list float) (sh : list nat) (n : nat) (d : list float)
    (g : G) (rest : list G) :
  fs !! (data_dir +:+ filename) = Some ds ->
  ds !! "longitude" = Some (array1 xs) ->
  ds !! "latitude" = Some (array1 ys) ->
  ds !! nc_key = Some (mk_ndarray (sh ++ [n]) d) ->
  matching_geometries records COUNTRY = g :: rest ->
  n <> length xs -> n <> 1 -> length xs <> 1 ->
  load_country_weather_data records fs COUNTRY data_dir filename nc_key
    = Raise (ValueError "operands could not be broadcast together").
Proof.
  intros Hfile Hlon Hlat Hvar Hmatch Hn Hn1 Hx1.
  unfold load_country_weather_data, Dataset, variable.
  rewrite Hfile, bind_Ok, Hlon, bind_Ok, Hlat, bind_Ok, Hvar, bind_Ok, Hmatch.
  rewrite build_mask_first. cbn zeta. rewrite bind_Ok.
  rewrite convert_units_converted. unfold binop, map_array. cbn [shape data].
  by rewrite broadcast_shapes_last_axis.
Qed.

Lemma field_on_other_grid_raises_witness :
  load_country_weather_data atlantis_records
    (<["/data/coarse.nc" :=
         <["t2m" := mk_ndarray [1; 2; 2] [280; 281; 282; 283]%float]> era5_example]> ∅)
    "Atlantis" "/data/" "coarse.nc" "t2m"
    = Raise (ValueError "operands could not be broadcast together").
Proof.
  apply (field_on_other_grid_raises atlantis_records
           (<["/data/coarse.nc" :=
                <["t2m" := mk_ndarray [1; 2; 2] [280; 281; 282; 283]%float]>
                  era5_example]> ∅)
           "Atlantis" "/data/" "coarse.nc" "t2m"
           (<["t2m" := mk_ndarray [1; 2; 2] [280; 281; 282; 283]%float]> era5_example)
           [0; 1; 2]%float [50; 51]%float [1; 2] 2 [280; 281; 282; 283]%float
           part_A [part_B]); try reflexivity; simpl; lia.
Defined.

(** ** A country that contains no grid point *)

Lemma foldl_add_zeros n :
  foldl PrimFloat.add 0%float (replicate n 0%float) = 0%float.
Proof. induction n as [|n IH]; [reflexivity|]. cbn [replicate foldl]. exact IH. Qed.

Lemma accumulate8_zeros k : forall m,
  8 * k <= m ->
  accumulate8 k (replicate 8 0%float) (replicate m 0%float) =
    (replicate 8 0%float, replicate (m - 8 * k) 0%float).
Proof.
  induction k as [|k IH]; intros m Hm.
  - cbn [accumulate8]. by rewrite Nat.mul_0_r, Nat.sub_0_r.
  - cbn [accumulate8]. rewrite take_replicate, drop_replicate.
    replace (8 `min` m) with 8 by lia.
    change (zip_with PrimFloat.add (replicate 8 0%float) (replicate 8 0%float))
      with (replicate 8 0%float).
    rewrite IH by lia. do 2 f_equal. lia.
Qed.

Lemma block_sum_zeros n :
  8 <= n -> block_sum (replicate n 0%float) = 0%float.
Proof.
  intros Hn. unfold block_sum.
  rewrite length_replicate, take_replicate, drop_replicate.
  replace (8 `min` n) with 8 by lia.
  pose proof (Nat.Div0.mul_div_le n 8) as Hdiv.
  rewrite accumulate8_zeros by lia.
  change (sum8 (replicate 8 0%float)) with 0%float. apply foldl_add_zeros.
Qed.

Lemma pairwise_sum_zeros fuel : forall n,
  1 <= n -> pairwise_sum fuel (replicate n 0%float) = 0%float.
Proof.
  induction fuel as [|fuel IH]; intros n Hn.
  - cbn [pairwise_sum]. rewrite length_replicate.
    destruct (Nat.ltb_spec n 8) as [H8|H8].
    + destruct n as [|n]; [lia|]. cbn [replicate foldl]. apply foldl_add_zeros.
    + destruct (Nat.leb n 128); by apply block_sum_zeros.
  - cbn [pairwise_sum]. rewrite length_replicate.
    destruct (Nat.ltb_spec n 8) as [H8|H8].
    + destruct n as [|n]; [lia|]. cbn [replicate foldl]. apply foldl_add_zeros.
    + destruct (Nat.leb_spec n 128) as [H128|H128]; [by apply block_sum_zeros|].
      pose proof (Nat.Div0.mul_div_le n 2) as Hdiv.
      pose proof (Nat.mod_upper_bound (n / 2) 8) as Hmod.
      assert (64 <= n / 2) as Hhalf.
      { apply Nat.div_le_lower_bound; lia. }
      rewrite take_replicate, drop_replicate, !IH by lia. reflexivity.
Qed.

Lemma np_sum_zeros n : np_sum (replicate n 0%float) = 0%float.
Proof.
  destruct n as [|n]; [reflexivity|]. unfold np_sum.
  change (replicate (S n) 0%float) with (0%float :: replicate n 0%float) at 1.
  cbv iota. rewrite pairwise_sum_zeros by lia. reflexivity.
Qed.

Lemma fmap_constant {A} (f : A -> float) (c : float) (l : list A) :
  (forall a, f a = c) -> f <$> l = replicate (length l) c.
Proof.
  intros Hf. induction l as [|a l IH]; [done|].
  rewrite fmap_cons, Hf, IH. reflexivity.
Qed.

Lemma grid_mask_outside {G : Type} `{!Geometry G} (g : G) (xs ys : list float) :
  (forall lo la, lo ∈ xs -> la ∈ ys -> contains g lo la = false) ->
  grid_mask g xs ys = replicate (length ys * length xs) 0%float.
Proof.
  intros Hout. unfold grid_mask.
  rewrite (fmap_constant _ 0%float), length_seq; [done|]. intros k.
  unfold cell, meshgrid, flatten, size. cbn [fst snd data array1].
  destruct (mjoin (replicate (length ys) xs) !! k) as [xk|] eqn:Hx; [|done].
  destruct (mjoin ((fun la => replicate (length xs) la) <$> ys) !! k)
    as [yk|] eqn:Hy; [|done].
  rewrite Hout; [done| |].
  - apply list_elem_of_lookup_2, list_elem_of_join in Hx as (l & Hxl & Hl).
    apply elem_of_replicate in Hl as [-> _]. done.
  - apply list_elem_of_lookup_2, list_elem_of_join in Hy as (l & Hyl & Hl).
    apply list_elem_of_fmap in Hl as (la & -> & Hla).
    apply elem_of_replicate in Hyl as [-> _]. done.
Qed.

(** X14.  When the geometry of the first matching record contains none of
    the grid points, the loader does not fail: it returns an all-zero mask.
    The failure comes one step later: a weighted mean with that mask, over
    any [lat, lon] slice, raises [ZeroDivisionError]. *)
Theorem country_off_grid_gives_zero_mask {G : Type} `{!Geometry G}
    (records : list (country_record G)) (fs : filesystem)
    (COUNTRY data_dir filename nc_key : string) (ds : dataset)
    (xs ys : list float) (nt : nat) (d : list float) (g : G) (rest : list G) :
  fs !! (data_dir +:+ filename) = Some ds ->
  ds !! "longitude" = Some (array1 xs) ->
  ds !! "latitude" = Some (array1 ys) ->
  ds !! nc_key = Some (mk_ndarray [nt; length ys; length xs] d) ->
  length d = nt * (length ys * length xs) ->
  matching_geometries records COUNTRY = g :: rest ->
  (forall lo la, lo ∈ xs -> la ∈ ys -> contains g lo la = false) ->
  exists masked mask,
    load_country_weather_data records fs COUNTRY data_dir filename nc_key
      = Ok (masked, mask)
    /\ mask = zeros [length ys; length xs]
    /\ forall slice : list float,
         np_average (mk_ndarray [length ys; length xs] slice) mask =
           Raise (ZeroDivisionError "Weights sum to zero, can't be normalized").
Proof.
  intros Hfile Hlon Hlat Hvar Hsize Hmatch Hout.
  eexists _, _. split.
  - by apply (load_country_gridded records fs COUNTRY data_dir filename nc_key
                ds xs ys nt d g rest).
  - rewrite (grid_mask_outside g xs ys Hout). split.
    + unfold zeros. cbn [prod_shape foldr]. by rewrite Nat.mul_1_r.
    + intros slice. apply np_average_zero_weights; [reflexivity|].
      cbn [data]. by rewrite np_sum_zeros.
Qed.

Lemma country_off_grid_gives_zero_mask_witness :
  exists masked mask,
    load_country_weather_data atlantis_records fs_example
      "Utopia" "/data/" "era5.nc" "t2m" = Ok (masked, mask)
    /\ mask = zeros [2; 3]
    /\ forall slice : list float,
         np_average (mk_ndarray [2; 3] slice) mask =
           Raise (ZeroDivisionError "Weights sum to zero, can't be normalized").
Proof.
  apply (country_off_grid_gives_zero_mask atlantis_records fs_example
           "Utopia" "/data/" "era5.nc" "t2m" era5_example
           [0; 1; 2]%float [50; 51]%float 1 (data t2m_raw) (mk_box 0 0 1 1) []);
    try reflexivity.
  intros lo la Hlo Hla.
  apply list_elem_of_In in Hlo, Hla. simpl in Hlo, Hla.
  destruct Hlo as [<-|[<-|[<-|[]]]]; destruct Hla as [<-|[<-|[]]]; reflexivity.
Defined.
